(** * Cart-pole performance metrics node: a shallow embedding

    Embedding of [performance_metrics.py] (class [PerformanceMetrics]).
    Python [float] values are IEEE-754 binary64 numbers and are modelled by
    Rocq's primitive [float]; the node's attributes become a record that is
    threaded through a small state / exception / logging monad, one
    definition per method of the class. *)

From Stdlib Require Import ZArith String List Bool Lia Floats.
Import ListNotations.

Set Implicit Arguments.
#[local] Set Warnings "-inexact-float".

(** ** Python values *)

Module Py.

(** Exceptions that the node's code can raise. *)
Inductive Exn := ValueError | IndexError | TypeError.

(** [list.index(x)]: position of the first element equal to [x]. *)
Fixpoint index (x : string) (l : list string) : option nat :=
  match l with
  | [] => None
  | y :: t => if String.eqb y x then Some 0%nat else option_map S (index x t)
  end.

(** Builtin [max(a, b)]: keeps [a] unless [b > a]. *)
Definition max2 (a b : float) : float := if PrimFloat.ltb a b then b else a.

(** Builtin [min(a, b)]: keeps [a] unless [b < a]. *)
Definition min2 (a b : float) : float := if PrimFloat.ltb b a then b else a.

(** Builtin [max(iterable)] on a non-empty list, started at its head. *)
Definition max_from (a : float) (l : list float) : float := fold_left max2 l a.

(** Conversion of a Python [int] to [float] (round to nearest, ties to
    even), as done when an [int] meets a [float] in arithmetic.  The
    clock fields it is applied to are 32-bit integers, which convert
    exactly. *)
Definition float_of_int (z : Z) : float :=
  SF2Prim (binary_normalize prec emax z 0 false).

End Py.

(** ** NumPy helpers that are plain IEEE arithmetic *)

Module Np.

(** [np.diff]: differences of consecutive elements. *)
Fixpoint diff (l : list float) : list float :=
  match l with
  | a :: (b :: _) as t => PrimFloat.sub b a :: diff t
  | _ => []
  end.

(** [np.square], elementwise. *)
Definition square (l : list float) : list float :=
  map (fun x => PrimFloat.mul x x) l.

(** A sequential instance of [np.mean]: left-to-right sum over the
    count.  NumPy's own reduction may associate the additions
    differently; the node is therefore parameterised by the mean it is
    given, and this instance serves to run it. *)
Definition mean_seq (l : list float) : float :=
  PrimFloat.div (fold_left PrimFloat.add l PrimFloat.zero)
                (Py.float_of_int (Z.of_nat (List.length l))).

End Np.

(** ** Messages *)

(** [sensor_msgs/JointState], the fields the node reads. *)
Record JointState := {
  name : list string;
  position : list float;
  velocity : list float
}.

(** [builtin_interfaces/Time] inside [rosgraph_msgs/Clock]. *)
Record Time := { sec : Z; nanosec : Z }.

(** ** Logger output

    A log record keeps the values that the format string interpolates;
    rendering them to a fixed number of decimals is the logger's concern. *)

Inductive RateStatus := Meets50Hz | Outside50HzRange | NotEnoughDataToCompute.

Inductive LogMsg :=
| NodeStarted
| CartExceededLimit (cart_pos : float)
| RecoveryTime (recovery_time : float)
| JointNamesNotFound
| EarthquakeDetected
| NotEnoughData
| MetricsHeader
| MaxPoleAngleDeviation (v : float)
| RmsCartPositionError (v : float)
| PeakControlForce (v : float)
| ControlEffortEfficiency (v : float)
| AverageRecoveryTime (v : float)
| NoRecoveryData
| ControlRate (hz : float) (status : RateStatus).

Inductive LogEntry := Info (m : LogMsg) | Warn (m : LogMsg).

(** ** Node state: the attributes set in [__init__] *)

Record Node := {
  pole_angles : list float;
  cart_positions : list float;
  control_forces : list float;
  recovery_times : list float;
  control_timestamps : list float;
  last_earthquake_time : option float;
  last_stable_time : option float;
  simulation_time : float
}.

Definition set_pole_angles v (s : Node) : Node :=
  {| pole_angles := v; cart_positions := cart_positions s;
     control_forces := control_forces s; recovery_times := recovery_times s;
     control_timestamps := control_timestamps s;
     last_earthquake_time := last_earthquake_time s;
     last_stable_time := last_stable_time s;
     simulation_time := simulation_time s |}.

Definition set_cart_positions v (s : Node) : Node :=
  {| pole_angles := pole_angles s; cart_positions := v;
     control_forces := control_forces s; recovery_times := recovery_times s;
     control_timestamps := control_timestamps s;
     last_earthquake_time := last_earthquake_time s;
     last_stable_time := last_stable_time s;
     simulation_time := simulation_time s |}.

Definition set_control_forces v (s : Node) : Node :=
  {| pole_angles := pole_angles s; cart_positions := cart_positions s;
     control_forces := v; recovery_times := recovery_times s;
     control_timestamps := control_timestamps s;
     last_earthquake_time := last_earthquake_time s;
     last_stable_time := last_stable_time s;
     simulation_time := simulation_time s |}.

Definition set_recovery_times v (s : Node) : Node :=
  {| pole_angles := pole_angles s; cart_positions := cart_positions s;
     control_forces := control_forces s; recovery_times := v;
     control_timestamps := control_timestamps s;
     last_earthquake_time := last_earthquake_time s;
     last_stable_time := last_stable_time s;
     simulation_time := simulation_time s |}.

Definition set_control_timestamps v (s : Node) : Node :=
  {| pole_angles := pole_angles s; cart_positions := cart_positions s;
     control_forces := control_forces s; recovery_times := recovery_times s;
     control_timestamps := v;
     last_earthquake_time := last_earthquake_time s;
     last_stable_time := last_stable_time s;
     simulation_time := simulation_time s |}.

Definition set_last_earthquake_time v (s : Node) : Node :=
  {| pole_angles := pole_angles s; cart_positions := cart_positions s;
     control_forces := control_forces s; recovery_times := recovery_times s;
     control_timestamps := control_timestamps s;
     last_earthquake_time := v;
     last_stable_time := last_stable_time s;
     simulation_time := simulation_time s |}.

Definition set_last_stable_time v (s : Node) : Node :=
  {| pole_angles := pole_angles s; cart_positions := cart_positions s;
     control_forces := control_forces s; recovery_times := recovery_times s;
     control_timestamps := control_timestamps s;
     last_earthquake_time := last_earthquake_time s;
     last_stable_time := v;
     simulation_time := simulation_time s |}.

Definition set_simulation_time v (s : Node) : Node :=
  {| pole_angles := pole_angles s; cart_positions := cart_positions s;
     control_forces := control_forces s; recovery_times := recovery_times s;
     control_timestamps := control_timestamps s;
     last_earthquake_time := last_earthquake_time s;
     last_stable_time := last_stable_time s;
     simulation_time := v |}.

(** ** The callback monad

    A callback starts from the node's attributes and yields either a value
    or a raised exception, together with the attributes as they stand at
    that moment and the log records written, oldest first. *)

Record Run (A : Type) := MkRun {
  result : Py.Exn + A;
  node : Node;
  logged : list LogEntry
}.

Definition M (A : Type) : Type := Node -> Run A.

Definition ret {A} (a : A) : M A := fun s => MkRun (inr a) s [].

Definition bind {A B} (c : M A) (k : A -> M B) : M B := fun s =>
  match c s with
  | MkRun (inl e) s1 l1 => MkRun (inl e) s1 l1
  | MkRun (inr a) s1 l1 =>
      match k a s1 with
      | MkRun r s2 l2 => MkRun r s2 (l1 ++ l2)
      end
  end.

Definition raise {A} (e : Py.Exn) : M A := fun s => MkRun (inl e) s [].

Definition get_self : M Node := fun s => MkRun (inr s) s [].

Definition modify (f : Node -> Node) : M unit := fun s => MkRun (inr tt) (f s) [].

Definition log (l : LogEntry) : M unit := fun s => MkRun (inr tt) s [l].

Definition exn_eqb (a b : Py.Exn) : bool :=
  match a, b with
  | Py.ValueError, Py.ValueError
  | Py.IndexError, Py.IndexError
  | Py.TypeError, Py.TypeError => true
  | _, _ => false
  end.

(** [try: body  except e: handler]; other exceptions pass through. *)
Definition try_except (body : M unit) (e : Py.Exn) (handler : M unit) : M unit :=
  fun s =>
    match body s with
    | MkRun (inl e') s1 l1 =>
        if exn_eqb e' e then
          match handler s1 with
          | MkRun r s2 l2 => MkRun r s2 (l1 ++ l2)
          end
        else MkRun (inl e') s1 l1
    | MkRun (inr tt) s1 l1 => MkRun (inr tt) s1 l1
    end.

Declare Scope py_scope.
Delimit Scope py_scope with py.
Notation "x <- c ;; k" := (bind c (fun x => k))
  (at level 61, c at next level, right associativity) : py_scope.
Notation "c ;; k" := (bind c (fun _ => k))
  (at level 61, right associativity) : py_scope.

Local Open Scope py_scope.
Local Open Scope float_scope.

Definition when (b : bool) (c : M unit) : M unit := if b then c else ret tt.

(** [name.index(x)], raising [ValueError] when [x] is absent. *)
Definition name_index (l : list string) (x : string) : M nat :=
  match Py.index x l with Some i => ret i | None => raise Py.ValueError end.

(** [seq[i]] for a non-negative index, raising [IndexError] out of range. *)
Definition getitem (l : list float) (i : nat) : M float :=
  match nth_error l i with Some v => ret v | None => raise Py.IndexError end.

(** ** The callbacks *)

Definition joint_state_body (msg : JointState) : M unit :=
  cart_idx <- name_index (name msg) "cart_to_base" ;;
  pole_idx <- name_index (name msg) "pole_joint" ;;
  cart_pos <- getitem (position msg) cart_idx ;;
  pole_angle <- getitem (position msg) pole_idx ;;
  v <- getitem (velocity msg) cart_idx ;;
  let cart_vel := abs v in
  modify (fun s => set_cart_positions (cart_positions s ++ [cart_pos]) s) ;;
  modify (fun s => set_pole_angles (pole_angles s ++ [abs pole_angle]) s) ;;
  when (2.5 <? abs cart_pos) (log (Warn (CartExceededLimit cart_pos))) ;;
  self <- get_self ;;
  match last_earthquake_time self with
  | Some quake_time =>
      when (cart_vel <? 0.05)
        (modify (fun s => set_last_stable_time (Some (simulation_time s)) s) ;;
         let recovery_time := simulation_time self - quake_time in
         modify (fun s => set_recovery_times (recovery_times s ++ [recovery_time]) s) ;;
         log (Info (RecoveryTime recovery_time)) ;;
         modify (set_last_earthquake_time None))
  | None => ret tt
  end.

Definition joint_state_callback (msg : JointState) : M unit :=
  try_except (joint_state_body msg) Py.ValueError (log (Warn JointNamesNotFound)).

Definition force_callback (data : float) : M unit :=
  modify (fun s => set_control_forces (control_forces s ++ [abs data]) s) ;;
  modify (fun s => set_control_timestamps (control_timestamps s ++ [simulation_time s]) s).

Definition earthquake_callback (data : float) : M unit :=
  when (5.0 <? abs data)
    (modify (fun s => set_last_earthquake_time (Some (simulation_time s)) s) ;;
     log (Info EarthquakeDetected)).

Definition clock_callback (clock : Time) : M unit :=
  modify (set_simulation_time
            (Py.float_of_int (sec clock) + Py.float_of_int (nanosec clock) * 1e-9)).

(** ** The periodic computation *)

(** The guard on the first line of [compute_metrics]. *)
Definition not_enough_data (s : Node) : bool :=
  (length (pole_angles s) <? 10)%nat
  || (length (cart_positions s) <? 10)%nat
  || (length (control_forces s) <? 10)%nat.

(** Builtin [max] over a list; [ValueError] on an empty one. *)
Definition max_of (l : list float) : M float :=
  match l with
  | [] => raise Py.ValueError
  | a :: t => ret (Py.max_from a t)
  end.

(** Lines 110-113: the clamped efficiency percentage. *)
Definition efficiency (peak_force : float) : float :=
  let max_allowed_force := 250.0 in
  let efficiency_percentage := (1 - peak_force / max_allowed_force) * 100 in
  Py.max2 0 (Py.min2 efficiency_percentage 100).

(** The test [40 <= r/4 <= 70] of line 105. *)
Definition in_band (avg_control_rate : float) : bool :=
  (40 <=? avg_control_rate / 4) && (avg_control_rate / 4 <=? 70).

Section WithNumPy.

(** [np.mean] over a one-dimensional array of doubles. *)
Variable np_mean : list float -> float.

(** Lines 101-108: the rate estimate and its status string. *)
Definition control_rate (timestamps : list float) : option float * RateStatus :=
  if (1 <? length timestamps)%nat then
    let control_intervals := Np.diff timestamps in
    let avg_control_rate := 1.0 / np_mean control_intervals in
    (Some avg_control_rate,
     if in_band avg_control_rate then Meets50Hz else Outside50HzRange)
  else (None, NotEnoughDataToCompute).

Definition compute_metrics : M unit :=
  self <- get_self ;;
  if not_enough_data self then log (Warn NotEnoughData)
  else
    max_pole_angle_dev <- max_of (pole_angles self) ;;
    let rms_cart_position := sqrt (np_mean (Np.square (cart_positions self))) in
    peak_force <- max_of (control_forces self) ;;
    let avg_recovery_time :=
      match recovery_times self with
      | [] => None
      | _ :: _ => Some (np_mean (recovery_times self))
      end in
    let '(avg_control_rate, control_rate_status) :=
      control_rate (control_timestamps self) in
    let efficiency_percentage := efficiency peak_force in
    log (Info MetricsHeader) ;;
    log (Info (MaxPoleAngleDeviation max_pole_angle_dev)) ;;
    log (Info (RmsCartPositionError rms_cart_position)) ;;
    log (Info (PeakControlForce peak_force)) ;;
    log (Info (ControlEffortEfficiency efficiency_percentage)) ;;
    log (Info (match avg_recovery_time with
               | Some t => AverageRecoveryTime t
               | None => NoRecoveryData
               end)) ;;
    match avg_control_rate with
    | Some r => log (Info (ControlRate (r / 4) control_rate_status))
    | None => raise Py.TypeError
    end.

(** ** The node under [rclpy.spin] *)

(** What the executor can deliver: a message on one of the four
    subscriptions, or an expiry of the 5-second timer. *)
Inductive Event :=
| JointStateMsg (msg : JointState)
| ForceMsg (data : float)
| EarthquakeMsg (data : float)
| ClockMsg (clock : Time)
| TimerTick.

Definition dispatch (ev : Event) : M unit :=
  match ev with
  | JointStateMsg msg => joint_state_callback msg
  | ForceMsg data => force_callback data
  | EarthquakeMsg data => earthquake_callback data
  | ClockMsg clock => clock_callback clock
  | TimerTick => compute_metrics
  end.

(** Callbacks run one at a time, to completion; an exception that leaves
    a callback leaves [spin] too, and nothing is delivered after it. *)
Fixpoint spin (evs : list Event) : M unit :=
  match evs with
  | [] => ret tt
  | ev :: rest => dispatch ev ;; spin rest
  end.

End WithNumPy.

(** Attributes after [__init__]. *)
Definition init : Node :=
  {| pole_angles := []; cart_positions := []; control_forces := [];
     recovery_times := []; control_timestamps := [];
     last_earthquake_time := None; last_stable_time := None;
     simulation_time := 0.0 |}.

(** Records written by one successful run of [compute_metrics]: the
    header and the six metric lines, in source order. *)
Definition is_report (l : list LogEntry) : bool :=
  match l with
  | [Info h; Info a; Info c; Info f; Info e; Info t; Info r] =>
      match h with MetricsHeader => true | _ => false end
      && match a with MaxPoleAngleDeviation _ => true | _ => false end
      && match c with RmsCartPositionError _ => true | _ => false end
      && match f with PeakControlForce _ => true | _ => false end
      && match e with ControlEffortEfficiency _ => true | _ => false end
      && match t with AverageRecoveryTime _ | NoRecoveryData => true | _ => false end
      && match r with ControlRate _ _ => true | _ => false end
  | _ => false
  end.

Definition emits_report (r : Run unit) : bool :=
  match result r with
  | inr _ => is_report (logged r)
  | inl _ => false
  end.

(** ** Readings of a joint-state message *)

(** What lines 46-52 extract, when every lookup succeeds:
    [(cart_pos, pole_angle, velocity[cart_idx])]. *)
Definition readings (msg : JointState) : option (float * float * float) :=
  match Py.index "cart_to_base" (name msg), Py.index "pole_joint" (name msg) with
  | Some cart_idx, Some pole_idx =>
      match nth_error (position msg) cart_idx,
            nth_error (position msg) pole_idx,
            nth_error (velocity msg) cart_idx with
      | Some cart_pos, Some pole_angle, Some v => Some (cart_pos, pole_angle, v)
      | _, _, _ => None
      end
  | _, _ => None
  end.

(** A well-formed message whose cart velocity is under the stability
    threshold of line 64. *)
Definition settles (msg : JointState) : bool :=
  match readings msg with
  | Some (_, _, v) => abs v <? 0.05
  | None => false
  end.

Definition settling (ev : Event) : bool :=
  match ev with JointStateMsg msg => settles msg | _ => false end.

(** A disturbance over the threshold of line 81. *)
Definition arming (ev : Event) : bool :=
  match ev with EarthquakeMsg data => 5.0 <? abs data | _ => false end.

(** An event that neither closes nor opens the disturbance window. *)
Definition quiet (ev : Event) : bool := negb (settling ev) && negb (arming ev).

(** The time written by [clock_callback]. *)
Definition stamp (clock : Time) : float :=
  Py.float_of_int (sec clock) + Py.float_of_int (nanosec clock) * 1e-9.

(** The node as [__init__] leaves it, with its start-up record. *)
Definition startup : Run unit := MkRun (inr tt) init [Info NodeStarted].

(** The two control series have the same length. *)
Definition aligned (s : Node) : Prop :=
  length (control_timestamps s) = length (control_forces s).

(** Line 112: the efficiency percentage before it is clamped. *)
Definition unclamped (peak_force : float) : float := (1 - peak_force / 250.0) * 100.

(** ** Binary64 values, as the specification of the primitive floats has them *)

Module Binary64.
Local Open Scope Z_scope.

(** Mantissa of [250.0], whose exponent is [-45]. *)
Definition m250 : positive := 8796093022208000.

(** [+inf], or a normal positive number that is at least [1.0]. *)
Definition ge_one (x : spec_float) : Prop :=
  match x with
  | S754_infinity false => True
  | S754_finite false m e => Zpos (digits2_pos m) = 53 /\ -52 <= e
  | _ => False
  end.

(** A zero, a NaN, or a number with the sign bit set. *)
Definition not_pos (x : spec_float) : Prop :=
  match x with
  | S754_zero _ | S754_nan => True
  | S754_infinity s | S754_finite s _ _ => s = true
  end.

(** The part of [binary_round_aux] after the first shift. *)
Definition round_tail (sx : bool) (mx ex : Z) : spec_float :=
  let '(mrs, e) := shr_fexp prec emax mx ex loc_Exact in
  match shr_m mrs with
  | Z0 => S754_zero sx
  | Zpos m => if e <=? emax - prec then S754_finite sx m e else S754_infinity sx
  | Zneg _ => S754_nan
  end.

End Binary64.

(** ** Sample inputs *)

Module Example.

Definition names : list string := ["cart_to_base"%string; "pole_joint"%string].
(** Cart nearly at rest. *)
Definition at_rest : JointState :=
  {| name := names; position := [0.3; 0.1]; velocity := [0.02; 1.0] |}.
(** Cart still moving. *)
Definition moving : JointState :=
  {| name := names; position := [0.3; 0.1]; velocity := [0.5; 1.0] |}.
(** No [pole_joint] channel. *)
Definition unnamed : JointState :=
  {| name := ["cart_to_base"%string]; position := [0.3]; velocity := [0.02] |}.
(** Both names, one position only. *)
Definition truncated : JointState :=
  {| name := names; position := [0.3]; velocity := [0.02; 1.0] |}.

Definition at_5s : Time := {| sec := 5; nanosec := 0 |}.
Definition at_3s5 : Time := {| sec := 3; nanosec := 500000000 |}.
(** Ten state samples and ten force commands, all at clock 5.0. *)
Definition warm_up : list Event :=
  ClockMsg at_5s :: repeat (JointStateMsg at_rest) 10 ++ repeat (ForceMsg 3.0) 10.
Definition steady : Node := node (spin Np.mean_seq warm_up init).
(** Ten state samples, then ten force commands 5 ms apart. *)
Definition paced_run : list Event :=
  repeat (JointStateMsg at_rest) 10 ++
  flat_map (fun k => [ClockMsg {| sec := 0; nanosec := 5000000 * Z.of_nat k |};
                      ForceMsg 3.0]) (seq 0 10).
Definition paced : Node := node (spin Np.mean_seq paced_run init).
(** Node whose clock reads 3.5. *)
Definition at_clock_3s5 : Node := node (spin Np.mean_seq [ClockMsg at_3s5] init).
Definition mid1 : list Event := [ClockMsg at_3s5; JointStateMsg moving].
Definition mid2 : list Event := [ClockMsg at_5s; ForceMsg 1.0].
Definition rearm_trace : list Event :=
  (EarthquakeMsg 6.0 :: mid1) ++ EarthquakeMsg (-7.0) :: mid2 ++ [JointStateMsg at_rest].
End Example.

(** ** Runs, counted *)

(** Stamps of the clock messages of a run, in order of delivery. *)
Definition clock_stamps (evs : list Event) : list float :=
  flat_map (fun ev => match ev with ClockMsg clock => [stamp clock] | _ => [] end) evs.

(** An expiry of the timer. *)
Definition is_tick (ev : Event) : bool :=
  match ev with TimerTick => true | _ => false end.

(** Number of disturbances over the threshold in a run. *)
Definition armings (evs : list Event) : nat := length (filter arming evs).

(** One if a disturbance window is open, zero otherwise. *)
Definition pending (s : Node) : nat :=
  match last_earthquake_time s with Some _ => 1 | None => 0 end.

(** A force command. *)
Definition is_force (ev : Event) : bool :=
  match ev with ForceMsg _ => true | _ => false end.

(** A joint-state message from which all three readings can be taken. *)
Definition well_formed (ev : Event) : bool :=
  match ev with
  | JointStateMsg msg => match readings msg with Some _ => true | None => false end
  | _ => false
  end.

(** ** An order key for binary64 values *)

Module Order64.
Local Open Scope Z_scope.

(** Position of a binary64 value on the number line, as a key compared
    lexicographically: class, then exponent, then mantissa (both negated
    for negative numbers). *)
Definition rank (x : spec_float) : Z * Z * Z :=
  match x with
  | S754_infinity true => (-2, 0, 0)
  | S754_finite true m e => (-1, - e, Zneg m)
  | S754_zero _ => (0, 0, 0)
  | S754_finite false m e => (1, e, Zpos m)
  | S754_infinity false => (2, 0, 0)
  | S754_nan => (3, 0, 0)
  end.

Definition key_lt (a b : Z * Z * Z) : Prop :=
  let '(a1, a2, a3) := a in
  let '(b1, b2, b3) := b in
  a1 < b1 \/ (a1 = b1 /\ (a2 < b2 \/ (a2 = b2 /\ a3 < b3))).

Definition key_le (a b : Z * Z * Z) : Prop := key_lt a b \/ a = b.

End Order64.

(** ** More sample inputs *)

Module Cases.
Import Example.


(** Cart beyond the position limit, nearly at rest. *)
Definition far_out : JointState :=
  {| name := names; position := [3.0; 0.1]; velocity := [0.02; 1.0] |}.

(** A node with an open window started at clock 3.5, now at clock 5.0. *)
Definition shaken : Node :=
  node (spin Np.mean_seq [ClockMsg at_3s5; EarthquakeMsg 6.0; ClockMsg at_5s] init).

(** A run with no disturbance over the threshold. *)
Definition calm_run : list Event :=
  [EarthquakeMsg 3.0; ClockMsg at_5s; JointStateMsg at_rest; EarthquakeMsg (-5.0)].

(** Ten state samples, then a NaN force followed by nine commands. *)
Definition nan_first_run : list Event :=
  repeat (JointStateMsg at_rest) 10 ++ ForceMsg nan :: repeat (ForceMsg 3.0) 9.

(** Ten state samples, then forces 3, NaN, 7 and seven more of 3. *)
Definition nan_later_run : list Event :=
  repeat (JointStateMsg at_rest) 10 ++
  ForceMsg 3.0 :: ForceMsg nan :: ForceMsg (-7.0) :: repeat (ForceMsg 3.0) 7.

End Cases.

Import Binary64.

(** * Properties *)

(** ** Binary64: digits, rounding, signs *)

Section Rounding.
Local Open Scope Z_scope.

Lemma digits2_size (p : positive) : digits2_pos p = Pos.size p.
Proof. induction p; cbn; congruence. Qed.

(** A positive with [k] binary digits lies in [[2^(k-1), 2^k)]. *)
Lemma digits_bounds (p : positive) :
  2 ^ (Zpos (digits2_pos p) - 1) <= Zpos p < 2 ^ Zpos (digits2_pos p).
Proof.
  rewrite digits2_size. split.
  - pose proof (Pos.size_le p) as H.
    apply Pos2Z.pos_le_pos in H. rewrite Pos2Z.inj_pow in H.
    assert (2 ^ Zpos (Pos.size p) = 2 * 2 ^ (Zpos (Pos.size p) - 1)) as E.
    { rewrite <- (Z.pow_succ_r 2 (Zpos (Pos.size p) - 1)) by lia.
      now replace (Z.succ (Zpos (Pos.size p) - 1)) with (Zpos (Pos.size p)) by lia. }
    rewrite E in H. clear E.
    generalize dependent (2 ^ (Zpos (Pos.size p) - 1)). intros; lia.
  - pose proof (Pos.size_gt p) as H.
    apply Pos2Z.pos_lt_pos in H. now rewrite Pos2Z.inj_pow in H.
Qed.

Lemma digits_unique (p : positive) (k : Z) :
  2 ^ (k - 1) <= Zpos p < 2 ^ k -> Zpos (digits2_pos p) = k.
Proof.
  intros [Hlo Hhi]. pose proof (digits_bounds p) as [Dlo Dhi].
  set (d := Zpos (digits2_pos p)) in *.
  assert (0 < d) by (subst d; lia).
  destruct (Z.lt_trichotomy d k) as [Hlt|[Heq|Hgt]]; [|exact Heq|].
  - assert (2 ^ d <= 2 ^ (k - 1)) by (apply Z.pow_le_mono_r; lia). lia.
  - assert (0 < k).
    { destruct (Z.le_gt_cases k 0) as [Hk|Hk]; [|exact Hk].
      assert (2 ^ k <= 2 ^ 0) by (apply Z.pow_le_mono_r; lia).
      cbn in *. lia. }
    assert (2 ^ k <= 2 ^ (d - 1)) by (apply Z.pow_le_mono_r; lia). lia.
Qed.

(** *** Rounding to binary64 *)

Lemma binary_round_aux_tail sx mx ex lx :
  binary_round_aux prec emax sx mx ex lx =
  let '(mrs, e) := shr_fexp prec emax mx ex lx in
  round_tail sx (round_nearest_even (shr_m mrs) (loc_of_shr_record mrs)) e.
Proof. reflexivity. Qed.

Lemma fexp_normal (k : Z) : -1021 <= k -> fexp prec emax k = k - 53.
Proof. intros H. unfold fexp, emin, prec, emax. lia. Qed.

Lemma loc_of_record_of_loc m l : loc_of_shr_record (shr_record_of_loc m l) = l.
Proof. destruct l as [|[]]; reflexivity. Qed.

Lemma shr_m_record_of_loc m l : shr_m (shr_record_of_loc m l) = m.
Proof. destruct l as [|[]]; reflexivity. Qed.

Lemma round_nearest_even_bounds m l :
  m <= round_nearest_even m l <= m + 1.
Proof. destruct l as [|[]]; cbn; try destruct (Z.even m); lia. Qed.

Lemma shr_1_halves mrs : 0 <= shr_m mrs -> shr_m (shr_1 mrs) = Z.div2 (shr_m mrs).
Proof.
  destruct mrs as [m r s]; cbn. intros H.
  destruct m as [|[p|p|]|p]; try reflexivity; lia.
Qed.

Lemma round_tail_sign sx mx ex :
  match round_tail sx mx ex with
  | S754_zero s | S754_infinity s | S754_finite s _ _ => s = sx
  | S754_nan => True
  end.
Proof.
  unfold round_tail. destruct (shr_fexp prec emax mx ex loc_Exact) as [mrs e].
  destruct (shr_m mrs); [reflexivity| |exact I].
  destruct (e <=? emax - prec); reflexivity.
Qed.

Lemma binary_round_aux_sign sx mx ex lx :
  match binary_round_aux prec emax sx mx ex lx with
  | S754_zero s | S754_infinity s | S754_finite s _ _ => s = sx
  | S754_nan => True
  end.
Proof.
  rewrite binary_round_aux_tail.
  destruct (shr_fexp prec emax mx ex lx) as [mrs e]. apply round_tail_sign.
Qed.

Lemma round_tail_ge_one (q ex : Z) :
  2 ^ 52 <= q <= 2 ^ 53 -> -52 <= ex -> ge_one (round_tail false q ex).
Proof.
  intros Hq Hex. unfold round_tail, shr_fexp.
  destruct q as [|pq|pq]; try (cbn in Hq; lia).
  destruct (Z.eq_dec (Zpos pq) (2 ^ 53)) as [E|E].
  - injection E as ->. cbn [Zdigits2 digits2_pos Pos.succ].
    rewrite fexp_normal by lia.
    replace (54 + ex - 53 - ex) with 1 by lia. cbn.
    destruct (ex + 1 <=? 971); cbn; [split; [reflexivity|lia] | exact I].
  - assert (Zpos (digits2_pos pq) = 53) as D by (apply digits_unique; lia).
    cbn [Zdigits2]. rewrite D, fexp_normal by lia.
    replace (53 + ex - 53 - ex) with 0 by lia. cbn.
    destruct (ex <=? 971); cbn; [split; [exact D|lia] | exact I].
Qed.

Lemma binary_round_aux_ge_one (q ex : Z) (l : location) :
  2 ^ 52 <= q < 2 ^ 54 ->
  -52 <= ex \/ (2 ^ 53 <= q /\ -53 <= ex) ->
  ge_one (binary_round_aux prec emax false q ex l).
Proof.
  intros Hq Hex. rewrite binary_round_aux_tail. unfold shr_fexp.
  destruct q as [|pq|pq]; try (cbn in Hq; lia).
  destruct (Z.lt_ge_cases (Zpos pq) (2 ^ 53)) as [Hlt|Hge].
  - assert (Zpos (digits2_pos pq) = 53) as D by (apply digits_unique; lia).
    cbn [Zdigits2]. rewrite D, fexp_normal by lia.
    replace (53 + ex - 53 - ex) with 0 by lia. cbn [shr].
    rewrite shr_m_record_of_loc, loc_of_record_of_loc.
    pose proof (round_nearest_even_bounds (Zpos pq) l).
    apply round_tail_ge_one; lia.
  - assert (Zpos (digits2_pos pq) = 54) as D by (apply digits_unique; lia).
    cbn [Zdigits2]. rewrite D, fexp_normal by lia.
    replace (54 + ex - 53 - ex) with 1 by lia. cbn [shr iter_pos].
    set (mrs := shr_1 (shr_record_of_loc (Zpos pq) l)).
    assert (shr_m mrs = Z.div2 (Zpos pq)) as Hm.
    { subst mrs. rewrite shr_1_halves; rewrite shr_m_record_of_loc; [reflexivity|lia]. }
    rewrite Hm.
    pose proof (round_nearest_even_bounds (Z.div2 (Zpos pq)) (loc_of_shr_record mrs)).
    assert (2 ^ 52 <= Z.div2 (Zpos pq) < 2 ^ 53).
    { rewrite Z.div2_div. split.
      - apply Z.div_le_lower_bound; lia.
      - apply Z.div_lt_upper_bound; lia. }
    apply round_tail_ge_one; lia.
Qed.

(** *** Division by 250 *)

Lemma div_250_ge_one (m : positive) (e : Z) :
  Zpos (digits2_pos m) = 53 ->
  -45 < e \/ (e = -45 /\ Zpos m250 <= Zpos m) ->
  ge_one (SFdiv prec emax (S754_finite false m e) (S754_finite false m250 (-45))).
Proof.
  intros D Hge.
  pose proof (digits_bounds m) as Hm. rewrite D in Hm.
  change (2 ^ (53 - 1)) with 4503599627370496 in Hm.
  change (2 ^ 53) with 9007199254740992 in Hm.
  unfold SFdiv, SFdiv_core_binary. cbn [xorb Zdigits2]. rewrite D.
  change (Zpos (digits2_pos m250)) with 53.
  rewrite fexp_normal by lia.
  replace (Z.min (53 + e - (53 + -45) - 53) (e - -45)) with (e - 8) by lia.
  replace (e - -45 - (e - 8)) with 53 by lia.
  rewrite Z.shiftl_mul_pow2 by lia.
  change (2 ^ 53) with 9007199254740992.
  pose proof (Z_div_mod (Zpos m * 9007199254740992) (Zpos m250) eq_refl) as Hdiv.
  destruct (Z.div_eucl (Zpos m * 9007199254740992) (Zpos m250)) as [q r].
  destruct Hdiv as [Heq Hr]. unfold m250 in *.
  apply binary_round_aux_ge_one.
  - change (2 ^ 52) with 4503599627370496.
    change (2 ^ 54) with 18014398509481984. lia.
  - change (2 ^ 53) with 9007199254740992.
    destruct Hge as [Hge|[-> Hge]]; [left; lia|right; lia].
Qed.

(** *** One minus a quotient that is at least one *)

Lemma iter_xO_le (m d : positive) : (m <= Pos.iter xO m d)%positive.
Proof.
  apply Pos.iter_invariant; [|lia]. intros x Hx. lia.
Qed.

Lemma binary_normalize_not_pos (z e : Z) :
  z <= 0 -> not_pos (binary_normalize prec emax z e false).
Proof.
  intros Hz. destruct z as [|p|p]; cbn [binary_normalize]; [exact I|lia|].
  unfold binary_round.
  destruct (shl_align p e (fexp prec emax (Zpos (digits2_pos p) + e))) as [mz ez].
  pose proof (binary_round_aux_sign true (Zpos mz) ez loc_Exact) as H.
  destruct (binary_round_aux prec emax true (Zpos mz) ez loc_Exact); cbn; auto.
Qed.

Lemma sub_one_not_pos (x : spec_float) :
  ge_one x ->
  not_pos (SFsub prec emax (S754_finite false 4503599627370496 (-52)) x).
Proof.
  destruct x as [s|[]|  |[] m e]; cbn [ge_one]; try contradiction.
  - intros _. reflexivity.
  - intros [D He]. unfold SFsub.
    replace (Z.min (-52) e) with (-52) by lia.
    apply binary_normalize_not_pos.
    pose proof (digits_bounds m) as Hm. rewrite D in Hm.
    change (2 ^ (53 - 1)) with 4503599627370496 in Hm.
    cbn [cond_Zopp]. change (fst (shl_align 4503599627370496 (-52) (-52)))
      with 4503599627370496%positive.
    unfold shl_align. destruct (-52 - e) as [|d|d]; cbn [fst]; try lia.
    pose proof (iter_xO_le m d). lia.
Qed.

Lemma mul_not_pos (x : spec_float) (m : positive) (e : Z) :
  not_pos x -> not_pos (SFmul prec emax x (S754_finite false m e)).
Proof.
  destruct x as [s|s| |s mx ex]; cbn [not_pos SFmul]; auto.
  - intros ->. reflexivity.
  - intros ->. cbn [xorb].
    pose proof (binary_round_aux_sign true (Zpos (mx * m)) (ex + e) loc_Exact) as H.
    destruct (binary_round_aux prec emax true (Zpos (mx * m)) (ex + e) loc_Exact);
      cbn; auto.
Qed.

(** A value that is not positive compares below neither 0 nor any
    positive finite number. *)
Lemma not_pos_ltb_zero (x : spec_float) :
  not_pos x -> SFltb (S754_zero false) x = false.
Proof. destruct x as [s|s| |s m e]; cbn; try reflexivity; now intros ->. Qed.

Lemma not_pos_ltb_finite (x : spec_float) (m : positive) (e : Z) :
  not_pos x -> SFltb (S754_finite false m e) x = false.
Proof. destruct x as [s|s| |s mx ex]; cbn; try reflexivity; now intros ->. Qed.

Lemma SFleb_finite_pos (m1 m2 : positive) (e1 e2 : Z) :
  SFleb (S754_finite false m1 e1) (S754_finite false m2 e2) =
  match e1 ?= e2 with
  | Lt => true
  | Gt => false
  | Eq => match (m1 ?= m2)%positive with Gt => false | _ => true end
  end.
Proof. unfold SFleb, SFcompare. destruct (e1 ?= e2); reflexivity. Qed.

(** A binary64 value that [250.0] does not exceed is [+inf] or a normal
    number with exponent at least that of [250.0]. *)
Lemma leb_250_cases (x : spec_float) :
  valid_binary x = true ->
  SFleb (S754_finite false m250 (-45)) x = true ->
  x = S754_infinity false \/
  exists m e, x = S754_finite false m e /\ Zpos (digits2_pos m) = 53 /\
              (-45 < e \/ (e = -45 /\ Zpos m250 <= Zpos m)).
Proof.
  intros Hv Hle.
  destruct x as [s|[]| |[] m e]; try (cbn in Hle; discriminate); auto.
  right. exists m, e. split; [reflexivity|].
  assert (-45 < e \/ (e = -45 /\ Zpos m250 <= Zpos m)) as Hcmp.
  { rewrite SFleb_finite_pos in Hle.
    destruct (Z.compare_spec (-45) e) as [<-|Hlt|Hgt]; [|left; lia|discriminate].
    right. split; [reflexivity|].
    destruct (Pos.compare_spec m250 m); try discriminate; lia. }
  split; [|exact Hcmp].
  cbn in Hv. unfold bounded, canonical_mantissa in Hv.
  apply andb_prop in Hv as [Hc _]. apply Z.eqb_eq in Hc.
  unfold fexp, SpecFloat.emin, prec, emax in Hc. lia.
Qed.

End Rounding.

(** ** Binary64: the efficiency formula *)

Lemma efficiency_unfold p :
  efficiency p =
  if 0 <? (if 100 <? unclamped p then 100 else unclamped p)
  then (if 100 <? unclamped p then 100 else unclamped p) else 0.
Proof. reflexivity. Qed.

Lemma c250 : Prim2SF 250 = S754_finite false m250 (-45).
Proof. vm_compute. reflexivity. Qed.
Lemma c100 : Prim2SF 100 = S754_finite false 7036874417766400 (-46).
Proof. vm_compute. reflexivity. Qed.
Lemma c1 : Prim2SF 1 = S754_finite false 4503599627370496 (-52).
Proof. vm_compute. reflexivity. Qed.
Lemma c0 : Prim2SF 0 = S754_zero false.
Proof. vm_compute. reflexivity. Qed.
Lemma cinf : Prim2SF infinity = S754_infinity false.
Proof. vm_compute. reflexivity. Qed.

Lemma unclamped_not_pos (p : float) :
  (250 <=? p) = true -> not_pos (Prim2SF (unclamped p)).
Proof.
  intros H. rewrite leb_spec, c250 in H.
  unfold unclamped. rewrite mul_spec, sub_spec, div_spec, c100, c1, c250.
  apply mul_not_pos, sub_one_not_pos.
  destruct (leb_250_cases (Prim2SF p) (Prim2SF_valid p) H) as [->|(m & e & -> & D & Hc)].
  - exact I.
  - now apply div_250_ge_one.
Qed.

Lemma efficiency_large_peak (p : float) : (250 <=? p) = true -> efficiency p = 0.
Proof.
  intros H. apply unclamped_not_pos in H. rewrite efficiency_unfold.
  assert ((100 <? unclamped p) = false) as ->.
  { rewrite ltb_spec, c100. now apply not_pos_ltb_finite. }
  assert ((0 <? unclamped p) = false) as ->.
  { rewrite ltb_spec, c0. now apply not_pos_ltb_zero. }
  reflexivity.
Qed.

Lemma efficiency_zero_peak (p : float) : (p =? 0) = true -> efficiency p = 100.
Proof.
  intros H. rewrite eqb_spec, c0 in H.
  assert (p = 0 \/ p = -0) as [->| ->].
  { rewrite <- (SF2Prim_Prim2SF p).
    destruct (Prim2SF p) as [[]|[]| |[] m e]; try discriminate; [right|left]; reflexivity. }
  - vm_compute. reflexivity.
  - vm_compute. reflexivity.
Qed.

Section Comparison.
Local Open Scope Z_scope.

Lemma SFltb_finite_pos (m1 m2 : positive) (e1 e2 : Z) :
  SFltb (S754_finite false m1 e1) (S754_finite false m2 e2) =
  match e1 ?= e2 with
  | Lt => true
  | Gt => false
  | Eq => match (m1 ?= m2)%positive with Lt => true | _ => false end
  end.
Proof. unfold SFltb, SFcompare. destruct (e1 ?= e2); reflexivity. Qed.

(** Among positive finite numbers, "not above" is "below or equal". *)
Lemma not_ltb_leb_finite_pos (m1 m2 : positive) (e1 e2 : Z) :
  SFltb (S754_finite false m1 e1) (S754_finite false m2 e2) = false ->
  SFleb (S754_finite false m2 e2) (S754_finite false m1 e1) = true.
Proof.
  rewrite SFltb_finite_pos, SFleb_finite_pos.
  rewrite (Z.compare_antisym e1 e2), (Pos.compare_antisym m1 m2).
  destruct (e1 ?= e2); cbn; try easy. destruct (m1 ?= m2)%positive; cbn; easy.
Qed.

Lemma leb_not_ltb_finite_pos (m1 m2 : positive) (e1 e2 : Z) :
  SFleb (S754_finite false m1 e1) (S754_finite false m2 e2) = true ->
  SFltb (S754_finite false m2 e2) (S754_finite false m1 e1) = false.
Proof.
  rewrite SFltb_finite_pos, SFleb_finite_pos.
  rewrite (Z.compare_antisym e1 e2), (Pos.compare_antisym m1 m2).
  destruct (e1 ?= e2); cbn; try easy. destruct (m1 ?= m2)%positive; cbn; easy.
Qed.

Lemma SFcompare_refl (x : spec_float) :
  x <> S754_nan -> SFcompare x x = Some Eq.
Proof.
  destruct x as [s|[]| |[] m e]; cbn; try reflexivity; try congruence;
    intros _; rewrite Z.compare_refl, Pos.compare_cont_refl; reflexivity.
Qed.
End Comparison.

(** The clamped value lies in [[0, 100]]. *)
Lemma efficiency_range (p : float) :
  (0 <=? efficiency p) = true /\ (efficiency p <=? 100) = true /\
  (efficiency p <? 0) = false.
Proof.
  rewrite efficiency_unfold. set (e := unclamped p).
  destruct (100 <? e) eqn:H1; [repeat split; vm_compute; reflexivity|].
  destruct (0 <? e) eqn:H2; [|repeat split; vm_compute; reflexivity].
  rewrite ltb_spec, ?c100, ?c0 in H1, H2.
  rewrite !leb_spec, ltb_spec, c100, c0.
  destruct (Prim2SF e) as [s|[]| |[] m ex]; try discriminate.
  repeat split; try reflexivity. now apply not_ltb_leb_finite_pos.
Qed.

(** How the clamped value relates to the unclamped one. *)
Lemma efficiency_cases (p : float) :
  ((unclamped p <? 0) = true -> efficiency p = 0) /\
  ((100 <? unclamped p) = true -> efficiency p = 100) /\
  ((0 <=? unclamped p) = true -> (unclamped p <=? 100) = true ->
   (efficiency p =? unclamped p) = true).
Proof.
  rewrite efficiency_unfold. set (e := unclamped p). repeat split.
  - intros H. rewrite ltb_spec, c0 in H.
    assert ((100 <? e) = false /\ (0 <? e) = false) as [-> ->]; [|reflexivity].
    rewrite !ltb_spec, c100, c0.
    destruct (Prim2SF e) as [s|[]| |[] m ex]; try discriminate; split; reflexivity.
  - intros ->. vm_compute. reflexivity.
  - intros H0 H1. rewrite leb_spec, ?c0, ?c100 in H0, H1.
    assert ((100 <? e) = false) as ->.
    { rewrite ltb_spec, c100.
      destruct (Prim2SF e) as [s|[]| |[] m ex]; try discriminate; try reflexivity.
      now apply leb_not_ltb_finite_pos. }
    destruct (0 <? e) eqn:H2.
    + rewrite eqb_spec. unfold SFeqb. rewrite SFcompare_refl; [reflexivity|].
      intros E. rewrite E in H0. discriminate.
    + rewrite eqb_spec, c0. rewrite ltb_spec, c0 in H2.
      destruct (Prim2SF e) as [s|[]| |[] m ex]; try discriminate; reflexivity.
Qed.

(** A finite number minus itself is [+0.0]. *)
Lemma sub_self (t : float) : is_finite t = true -> t - t = 0.
Proof.
  intros H. apply Prim2SF_inj. rewrite sub_spec, c0.
  unfold is_finite, is_nan, is_infinity in H.
  rewrite !eqb_spec, abs_spec, cinf in H.
  destruct (Prim2SF t) as [s|s| |s m e].
  - destruct s; reflexivity.
  - destruct s; discriminate.
  - discriminate.
  - clear H. unfold SF64sub, SFsub. rewrite Z.sub_diag. reflexivity.
Qed.

Lemma diff_repeat (t : float) (n : nat) :
  Np.diff (repeat t n) = repeat (t - t) (pred n).
Proof.
  induction n as [|[|n] IH]; try reflexivity.
  change (Np.diff (repeat t (S (S n)))) with ((t - t) :: Np.diff (repeat t (S n))).
  rewrite IH. reflexivity.
Qed.

(** ** Lookups and single messages *)

Lemma index_none_iff (x : string) (l : list string) :
  Py.index x l = None <-> ~ In x l.
Proof.
  induction l as [|y t IH]; cbn.
  - tauto.
  - destruct (String.eqb_spec y x) as [->|Hne].
    + split; [discriminate | intros H; exfalso; apply H; now left].
    + destruct (Py.index x t) eqn:E; cbn.
      * split; [discriminate|]. intros H. exfalso.
        assert (~ In x t) as Hn by (intros Hin; apply H; now right).
        apply IH in Hn. discriminate.
      * split; [|reflexivity]. intros _ [Heq|Hin]; [congruence|].
        now apply IH in Hin.
Qed.

Lemma missing_name_warns (msg : JointState) (s : Node) :
  Py.index "cart_to_base" (name msg) = None \/
  Py.index "pole_joint" (name msg) = None ->
  joint_state_callback msg s = MkRun (inr tt) s [Warn JointNamesNotFound].
Proof.
  intros H. unfold joint_state_callback, try_except, joint_state_body, name_index, bind.
  destruct (Py.index "cart_to_base" (name msg)) as [ci|] eqn:Ec; cbn.
  - destruct H as [H|H]; [discriminate|]. rewrite H. reflexivity.
  - reflexivity.
Qed.

Lemma joint_state_index_fault (msg : JointState) (s : Node) cart_idx pole_idx :
  Py.index "cart_to_base" (name msg) = Some cart_idx ->
  Py.index "pole_joint" (name msg) = Some pole_idx ->
  readings msg = None ->
  joint_state_callback msg s = MkRun (inl Py.IndexError) s [].
Proof.
  intros Hc Hp Hr. unfold readings in Hr. rewrite Hc, Hp in Hr.
  unfold joint_state_callback, try_except, joint_state_body, name_index, getitem, bind.
  rewrite Hc, Hp; cbn.
  destruct (nth_error (position msg) cart_idx); cbn; [|reflexivity].
  destruct (nth_error (position msg) pole_idx); cbn; [|reflexivity].
  destruct (nth_error (velocity msg) cart_idx); cbn; [discriminate|reflexivity].
Qed.

(** Effect of a well-formed message on every attribute. *)
Lemma joint_state_ok (msg : JointState) (s : Node) cart_pos pole_angle v :
  readings msg = Some (cart_pos, pole_angle, v) ->
  let r := joint_state_callback msg s in
  result r = inr tt /\
  cart_positions (node r) = cart_positions s ++ [cart_pos] /\
  pole_angles (node r) = pole_angles s ++ [abs pole_angle] /\
  control_forces (node r) = control_forces s /\
  control_timestamps (node r) = control_timestamps s /\
  simulation_time (node r) = simulation_time s /\
  match last_earthquake_time s with
  | Some quake_time =>
      if abs v <? 0.05 then
        recovery_times (node r) = recovery_times s ++ [simulation_time s - quake_time] /\
        last_earthquake_time (node r) = None
      else
        recovery_times (node r) = recovery_times s /\
        last_earthquake_time (node r) = Some quake_time
  | None =>
      recovery_times (node r) = recovery_times s /\
      last_earthquake_time (node r) = None
  end.
Proof.
  intros Hr. unfold readings in Hr.
  destruct (Py.index "cart_to_base" (name msg)) as [ci|] eqn:Ec; [|discriminate].
  destruct (Py.index "pole_joint" (name msg)) as [pi|] eqn:Ep; [|discriminate].
  destruct (nth_error (position msg) ci) as [a|] eqn:E1; [|discriminate].
  destruct (nth_error (position msg) pi) as [b|] eqn:E2; [|discriminate].
  destruct (nth_error (velocity msg) ci) as [c|] eqn:E3; [|discriminate].
  injection Hr as -> -> ->.
  unfold joint_state_callback, try_except, joint_state_body, name_index, getitem,
    when, bind.
  rewrite Ec, Ep; cbn. rewrite E1; cbn. rewrite E2; cbn. rewrite E3; cbn.
  destruct (2.5 <? abs cart_pos); cbn;
    (destruct (last_earthquake_time s) as [q|] eqn:Eq; cbn;
     [destruct (abs v <? 0.05); cbn; rewrite ?Eq; repeat split; reflexivity
     | rewrite ?Eq; repeat split; reflexivity]).
Qed.

(** ** Laws of the callback monad *)

Lemma bind_ext {A B} (c : M A) (k k' : A -> M B) (s : Node) :
  (forall a s1, k a s1 = k' a s1) -> bind c k s = bind c k' s.
Proof.
  intros H. unfold bind. destruct (c s) as [[e|a] s1 l1]; [reflexivity|].
  now rewrite H.
Qed.

Lemma bind_assoc {A B C} (c : M A) (k : A -> M B) (h : B -> M C) (s : Node) :
  bind (bind c k) h s = bind c (fun a => bind (k a) h) s.
Proof.
  unfold bind. destruct (c s) as [[e|a] s1 l1]; [reflexivity|].
  destruct (k a s1) as [[e|b] s2 l2]; [reflexivity|].
  destruct (h b s2) as [r s3 l3]. now rewrite app_assoc.
Qed.

Section Metrics.

Variable np_mean : list float -> float.

Lemma compute_metrics_short (s : Node) :
  not_enough_data s = true ->
  compute_metrics np_mean s = MkRun (inr tt) s [Warn NotEnoughData].
Proof.
  intros H. unfold compute_metrics, bind, get_self; cbn. rewrite H. reflexivity.
Qed.

Lemma guard_nonempty (s : Node) :
  not_enough_data s = false ->
  (10 <= length (pole_angles s) /\ 10 <= length (cart_positions s) /\
   10 <= length (control_forces s))%nat.
Proof.
  unfold not_enough_data. intros H.
  apply orb_false_elim in H as [H H3]. apply orb_false_elim in H as [H1 H2].
  apply Nat.ltb_ge in H1, H2, H3. auto.
Qed.

(** With the guard passed and two timestamps or more, the run goes
    through all seven logger calls. *)
Lemma compute_metrics_full (s : Node) :
  not_enough_data s = false ->
  (2 <= length (control_timestamps s))%nat ->
  exists a ta b tb,
    pole_angles s = a :: ta /\ control_forces s = b :: tb /\
    let avg_control_rate := 1.0 / np_mean (Np.diff (control_timestamps s)) in
    compute_metrics np_mean s =
    MkRun (inr tt) s
      [Info MetricsHeader;
       Info (MaxPoleAngleDeviation (Py.max_from a ta));
       Info (RmsCartPositionError (sqrt (np_mean (Np.square (cart_positions s)))));
       Info (PeakControlForce (Py.max_from b tb));
       Info (ControlEffortEfficiency (efficiency (Py.max_from b tb)));
       Info (match recovery_times s with
             | [] => NoRecoveryData
             | _ :: _ => AverageRecoveryTime (np_mean (recovery_times s))
             end);
       Info (ControlRate (avg_control_rate / 4)
               (if in_band avg_control_rate then Meets50Hz else Outside50HzRange))].
Proof.
  intros Hg Hts. pose proof (guard_nonempty s Hg) as (Ha & _ & Hf).
  destruct (pole_angles s) as [|a ta] eqn:Ea; [cbn in Ha; lia|].
  destruct (control_forces s) as [|b tb] eqn:Eb; [cbn in Hf; lia|].
  exists a, ta, b, tb. repeat split.
  unfold compute_metrics, bind, get_self; cbn. rewrite Hg, Ea, Eb. cbn.
  unfold control_rate. apply Nat.ltb_lt in Hts. rewrite Hts. cbn.
  destruct (recovery_times s); reflexivity.
Qed.

(** With fewer than two timestamps the last format string divides
    [None] by 4. *)
Lemma compute_metrics_no_rate (s : Node) :
  not_enough_data s = false ->
  (length (control_timestamps s) < 2)%nat ->
  result (compute_metrics np_mean s) = inl Py.TypeError /\
  node (compute_metrics np_mean s) = s.
Proof.
  intros Hg Hts. pose proof (guard_nonempty s Hg) as (Ha & _ & Hf).
  destruct (pole_angles s) as [|a ta] eqn:Ea; [cbn in Ha; lia|].
  destruct (control_forces s) as [|b tb] eqn:Eb; [cbn in Hf; lia|].
  unfold compute_metrics, bind, get_self; cbn. rewrite Hg, Ea, Eb. cbn.
  unfold control_rate.
  assert ((1 <? length (control_timestamps s))%nat = false) as ->
    by (apply Nat.ltb_ge; lia).
  cbn. split; reflexivity.
Qed.

(** [compute_metrics] only reads the attributes. *)
Lemma compute_metrics_node (s : Node) : node (compute_metrics np_mean s) = s.
Proof.
  destruct (not_enough_data s) eqn:Hg.
  - now rewrite compute_metrics_short.
  - destruct (Nat.le_gt_cases 2 (length (control_timestamps s))) as [H|H].
    + destruct (compute_metrics_full s Hg H) as (a & ta & b & tb & _ & _ & E).
      cbv zeta in E. now rewrite E.
    + now apply compute_metrics_no_rate.
Qed.

End Metrics.

Section Events.

Variable np_mean : list float -> float.

(** What a single callback does to the two control series. *)
Lemma dispatch_control_series (ev : Event) (s : Node) :
  let s' := node (dispatch np_mean ev s) in
  match ev with
  | ForceMsg data =>
      control_forces s' = control_forces s ++ [abs data] /\
      control_timestamps s' = control_timestamps s ++ [simulation_time s]
  | _ =>
      control_forces s' = control_forces s /\
      control_timestamps s' = control_timestamps s
  end.
Proof.
  destruct ev as [msg|data|data|clock|]; cbn [dispatch].
  - destruct (readings msg) as [[[cp pa] v]|] eqn:Er.
    + pose proof (joint_state_ok msg s Er) as (_ & _ & _ & Hf & Ht & _). auto.
    + destruct (Py.index "cart_to_base" (name msg)) as [ci|] eqn:Ec.
      * destruct (Py.index "pole_joint" (name msg)) as [pi|] eqn:Ep.
        -- rewrite (joint_state_index_fault msg s Ec Ep Er). auto.
        -- rewrite missing_name_warns by auto. auto.
      * rewrite missing_name_warns by auto. auto.
  - cbn. auto.
  - unfold earthquake_callback, when. destruct (5.0 <? abs data); cbn; auto.
  - cbn. auto.
  - rewrite compute_metrics_node. auto.
Qed.

(** What a single callback does to the recovery series and to the
    disturbance window, for an event that does not settle. *)
Lemma dispatch_quiet (ev : Event) (s : Node) :
  settling ev = false ->
  let s' := node (dispatch np_mean ev s) in
  recovery_times s' = recovery_times s /\
  (arming ev = false -> last_earthquake_time s' = last_earthquake_time s).
Proof.
  destruct ev as [msg|data|data|clock|]; cbn [dispatch settling arming]; intros Hs.
  - unfold settles in Hs.
    destruct (readings msg) as [[[cp pa] v]|] eqn:Er.
    + pose proof (joint_state_ok msg s Er) as (_ & _ & _ & _ & _ & _ & H).
      rewrite Hs in H.
      destruct (last_earthquake_time s); destruct H as [-> ->]; auto.
    + destruct (Py.index "cart_to_base" (name msg)) as [ci|] eqn:Ec.
      * destruct (Py.index "pole_joint" (name msg)) as [pi|] eqn:Ep.
        -- rewrite (joint_state_index_fault msg s Ec Ep Er). auto.
        -- rewrite missing_name_warns by auto. auto.
      * rewrite missing_name_warns by auto. auto.
  - cbn. auto.
  - unfold earthquake_callback, when. destruct (5.0 <? abs data); cbn; auto.
    split; [reflexivity|discriminate].
  - cbn. auto.
  - rewrite compute_metrics_node. auto.
Qed.

Lemma spin_app (a b : list Event) (s : Node) :
  spin np_mean (a ++ b) s = bind (spin np_mean a) (fun _ => spin np_mean b) s.
Proof.
  revert s. induction a as [|ev a IH]; intros s; cbn [app spin].
  - unfold bind; cbn. now destruct (spin np_mean b s).
  - rewrite bind_assoc. apply bind_ext. intros _ s1. apply IH.
Qed.

(** A run that ends normally passed through each prefix normally. *)
Lemma spin_app_ok (a b : list Event) (s : Node) :
  result (spin np_mean (a ++ b) s) = inr tt ->
  result (spin np_mean a s) = inr tt /\
  node (spin np_mean (a ++ b) s) = node (spin np_mean b (node (spin np_mean a s))) /\
  result (spin np_mean b (node (spin np_mean a s))) = inr tt.
Proof.
  rewrite spin_app. unfold bind.
  destruct (spin np_mean a s) as [[e|[]] s1 l1]; cbn; [discriminate|].
  destruct (spin np_mean b s1) as [r s2 l2]; cbn. auto.
Qed.

(** One more callback, then the rest of the run. *)
Lemma spin_cons_node (ev : Event) (evs : list Event) (s : Node) :
  node (spin np_mean (ev :: evs) s) =
  match result (dispatch np_mean ev s) with
  | inl _ => node (dispatch np_mean ev s)
  | inr _ => node (spin np_mean evs (node (dispatch np_mean ev s)))
  end.
Proof.
  cbn [spin]. unfold bind.
  destruct (dispatch np_mean ev s) as [[e|[]] s1 l1]; cbn; [reflexivity|].
  now destruct (spin np_mean evs s1).
Qed.

(** Any property of the attributes kept by every callback is kept by a
    run, whether or not it ends in an exception. *)
Lemma spin_invariant (P : Node -> Prop) :
  (forall ev s, P s -> P (node (dispatch np_mean ev s))) ->
  forall evs s, P s -> P (node (spin np_mean evs s)).
Proof.
  intros Hstep evs. induction evs as [|ev evs IH]; intros s Hs.
  - exact Hs.
  - rewrite spin_cons_node. specialize (Hstep ev s Hs).
    destruct (result (dispatch np_mean ev s)); auto.
Qed.

(** Events that do not settle leave the recovery series alone. *)
Lemma spin_unsettled (evs : list Event) (s : Node) :
  forallb (fun ev => negb (settling ev)) evs = true ->
  recovery_times (node (spin np_mean evs s)) = recovery_times s.
Proof.
  revert s. induction evs as [|ev evs IH]; intros s H; [reflexivity|].
  cbn [forallb] in H. apply andb_prop in H as [Hev H]. apply negb_true_iff in Hev.
  pose proof (dispatch_quiet ev s Hev) as [Hr _]. cbv zeta in Hr.
  rewrite spin_cons_node. destruct (result (dispatch np_mean ev s)); [exact Hr|].
  now rewrite IH.
Qed.

(** Quiet events leave the window alone as well. *)
Lemma spin_quiet (evs : list Event) (s : Node) :
  forallb quiet evs = true ->
  recovery_times (node (spin np_mean evs s)) = recovery_times s /\
  last_earthquake_time (node (spin np_mean evs s)) = last_earthquake_time s.
Proof.
  revert s. induction evs as [|ev evs IH]; intros s H; [auto|].
  cbn [forallb] in H. apply andb_prop in H as [Hev H]. unfold quiet in Hev.
  apply andb_prop in Hev as [Hs Ha]. apply negb_true_iff in Hs, Ha.
  pose proof (dispatch_quiet ev s Hs) as [Hr Hw]. specialize (Hw Ha). cbv zeta in Hr.
  rewrite spin_cons_node. destruct (result (dispatch np_mean ev s)); [auto|].
  destruct (IH (node (dispatch np_mean ev s)) H) as [-> ->]. auto.
Qed.

(** A settling message closes the live window. *)
Lemma settle_closes (msg : JointState) (s : Node) (quake_time : float) :
  settles msg = true ->
  last_earthquake_time s = Some quake_time ->
  let r := joint_state_callback msg s in
  result r = inr tt /\
  recovery_times (node r) = recovery_times s ++ [simulation_time s - quake_time] /\
  last_earthquake_time (node r) = None /\
  simulation_time (node r) = simulation_time s.
Proof.
  unfold settles. intros Hs Hw.
  destruct (readings msg) as [[[cp pa] v]|] eqn:Er; [|discriminate].
  pose proof (joint_state_ok msg s Er) as (H0 & _ & _ & _ & _ & Ht & H).
  rewrite Hw, Hs in H. destruct H as [H1 H2]. auto.
Qed.

(** From a live window, through quiet events, to the settling message:
    one duration is appended, measured from the window's start. *)
Lemma window_closed_once (mid : list Event) (msg : JointState) (s : Node)
      (quake_time : float) :
  last_earthquake_time s = Some quake_time ->
  forallb quiet mid = true ->
  settles msg = true ->
  result (spin np_mean mid s) = inr tt ->
  let r := spin np_mean (mid ++ [JointStateMsg msg]) s in
  result r = inr tt /\
  recovery_times (node r) =
    recovery_times s ++ [simulation_time (node r) - quake_time] /\
  last_earthquake_time (node r) = None /\
  simulation_time (node r) = simulation_time (node (spin np_mean mid s)).
Proof.
  intros Hw Hq Hs Hmid r. subst r.
  destruct (spin_quiet mid s Hq) as [Hr Hl]. rewrite Hw in Hl.
  pose proof (settle_closes msg (node (spin np_mean mid s)) Hs Hl)
    as (H0 & H1 & H2 & H3).
  rewrite spin_app. cbn [spin dispatch]. unfold bind.
  destruct (spin np_mean mid s) as [[e|[]] s1 l1]; cbn in *; [discriminate|].
  destruct (joint_state_callback msg s1) as [r s2 l2]; cbn in *.
  subst r. cbn. rewrite H1, H2, H3, Hr. auto.
Qed.

Lemma last_cons {A} (l : list A) (x d : A) : last (x :: l) d = last l x.
Proof.
  revert x d. induction l as [|y l IH]; intros x d; [reflexivity|].
  change (last (x :: y :: l) d) with (last (y :: l) d). now rewrite !IH.
Qed.

(** Clock messages never fail and leave the last stamp on the clock. *)
Lemma spin_clocks (clocks : list Time) (s : Node) :
  let r := spin np_mean (map ClockMsg clocks) s in
  result r = inr tt /\
  simulation_time (node r) = last (map stamp clocks) (simulation_time s).
Proof.
  revert s. induction clocks as [|c clocks IH]; intros s; [cbn; auto|].
  destruct (IH (set_simulation_time (stamp c) s)) as [H1 H2].
  cbn [map spin dispatch]. rewrite last_cons.
  unfold bind, clock_callback, modify. fold (stamp c).
  destruct (spin np_mean (map ClockMsg clocks) (set_simulation_time (stamp c) s))
    as [r s2 l2]. cbn [result node] in *. auto.
Qed.

Lemma clocks_quiet (clocks : list Time) : forallb quiet (map ClockMsg clocks) = true.
Proof. induction clocks; cbn; auto. Qed.

End Events.

(** ** The claims *)

Section Invariants.
Variable np_mean : list float -> float.

Lemma earthquake_arms (data : float) (s : Node) :
  (5.0 <? abs data) = true ->
  earthquake_callback data s =
  MkRun (inr tt) (set_last_earthquake_time (Some (simulation_time s)) s)
        [Info EarthquakeDetected].
Proof. intros H. unfold earthquake_callback. rewrite H. reflexivity. Qed.

Lemma dispatch_aligned (ev : Event) (s : Node) :
  aligned s -> aligned (node (dispatch np_mean ev s)).
Proof.
  unfold aligned. intros H.
  pose proof (dispatch_control_series np_mean ev s) as D. cbv zeta in D.
  destruct ev; destruct D as [-> ->]; rewrite ?length_app; cbn; lia.
Qed.

Lemma spin_aligned (evs : list Event) (s : Node) :
  aligned s -> aligned (node (spin np_mean evs s)).
Proof. apply spin_invariant. intros ev s'. apply dispatch_aligned. Qed.

Lemma emits_report_inv (s : Node) :
  emits_report (compute_metrics np_mean s) = true ->
  not_enough_data s = false /\ (2 <= length (control_timestamps s))%nat.
Proof.
  intros H. destruct (not_enough_data s) eqn:Hg.
  - rewrite compute_metrics_short in H by assumption. discriminate.
  - split; [reflexivity|].
    destruct (Nat.le_gt_cases 2 (length (control_timestamps s))) as [L|L]; [exact L|].
    destruct (compute_metrics_no_rate np_mean s Hg L) as [E _].
    unfold emits_report in H. rewrite E in H. discriminate.
Qed.

Lemma emits_report_full (s : Node) :
  not_enough_data s = false ->
  (2 <= length (control_timestamps s))%nat ->
  emits_report (compute_metrics np_mean s) = true.
Proof.
  intros Hg L.
  destruct (compute_metrics_full np_mean s Hg L) as (a & ta & b & tb & _ & _ & E).
  cbv zeta in E. rewrite E. unfold emits_report; cbn.
  destruct (recovery_times s); reflexivity.
Qed.

(** C2. A joint-state message whose name list lacks ["cart_to_base"] or
    ["pole_joint"] leaves every attribute of the node as it was (no series
    grows, the disturbance window and the clock are untouched); the callback
    returns normally and its only output is the warning. *)
Theorem joint_state_missing_name_dropped (msg : JointState) (s : Node) :
  ~ In "cart_to_base"%string (name msg) \/ ~ In "pole_joint"%string (name msg) ->
  joint_state_callback msg s = MkRun (inr tt) s [Warn JointNamesNotFound].
Proof.
  intros H. apply missing_name_warns.
  destruct H as [H|H]; [left|right]; now apply index_none_iff.
Qed.

(** C10. When both names are present but [position] or [velocity] is too
    short for a looked-up index, the callback ends in an [IndexError] that
    the [except ValueError] clause does not catch; the attributes are
    unchanged, since the three reads come before the first append, and
    nothing is logged. *)
Theorem joint_state_short_array_faults (msg : JointState) (s : Node)
        (cart_idx pole_idx : nat) :
  Py.index "cart_to_base" (name msg) = Some cart_idx ->
  Py.index "pole_joint" (name msg) = Some pole_idx ->
  (length (position msg) <= cart_idx \/ length (position msg) <= pole_idx \/
   length (velocity msg) <= cart_idx)%nat ->
  joint_state_callback msg s = MkRun (inl Py.IndexError) s [].
Proof.
  intros Hc Hp Hshort. apply (joint_state_index_fault msg s Hc Hp).
  unfold readings. rewrite Hc, Hp.
  destruct Hshort as [H|[H|H]]; apply nth_error_None in H; rewrite H;
    repeat match goal with |- context [match ?x with _ => _ end] => destruct x end;
    reflexivity.
Qed.

(** C8. A force message appends one element to [control_forces] and one
    to [control_timestamps]; every other event, the timer included, leaves
    both series as they were.  Hence after any run from [__init__] the two
    series have the same length. *)
Theorem control_series_aligned :
  (forall ev s,
     let s' := node (dispatch np_mean ev s) in
     match ev with
     | ForceMsg data =>
         control_forces s' = control_forces s ++ [abs data] /\
         control_timestamps s' = control_timestamps s ++ [simulation_time s]
     | _ =>
         control_forces s' = control_forces s /\
         control_timestamps s' = control_timestamps s
     end) /\
  (forall evs,
     length (control_timestamps (node (spin np_mean evs init))) =
     length (control_forces (node (spin np_mean evs init)))).
Proof.
  split; [apply dispatch_control_series|].
  intros evs. apply (spin_aligned evs). reflexivity.
Qed.

(** C9. With ten samples or more in each required series (and the two
    control series aligned, as they are in every run), [compute_metrics]
    writes a report, leaves the attributes unchanged, and a second call
    right after it yields the very same outcome. *)
Theorem compute_metrics_idempotent (s : Node) :
  not_enough_data s = false ->
  length (control_timestamps s) = length (control_forces s) ->
  let first := compute_metrics np_mean s in
  let second := compute_metrics np_mean (node first) in
  emits_report first = true /\ node first = s /\ node second = s /\ second = first.
Proof.
  intros Hg Ha first second. subst first second.
  rewrite !compute_metrics_node. repeat split.
  apply emits_report_full; [exact Hg|].
  pose proof (guard_nonempty s Hg) as (_ & _ & Hf). lia.
Qed.

(** C5. If any of the pole-angle, cart-position or control-force series
    has fewer than ten samples, [compute_metrics] writes the
    insufficient-data warning and nothing else; and in every state the
    node can reach, that guard is the only way the report is skipped: once
    the three series hold ten samples, the report is written. *)
Theorem insufficient_data_guard :
  (forall s,
     (length (pole_angles s) < 10 \/ length (cart_positions s) < 10 \/
      length (control_forces s) < 10)%nat ->
     compute_metrics np_mean s = MkRun (inr tt) s [Warn NotEnoughData]) /\
  (forall evs,
     let s := node (spin np_mean evs init) in
     (10 <= length (pole_angles s) /\ 10 <= length (cart_positions s) /\
      10 <= length (control_forces s))%nat ->
     emits_report (compute_metrics np_mean s) = true).
Proof.
  split.
  - intros s H. apply compute_metrics_short. unfold not_enough_data.
    destruct H as [H|[H|H]]; apply Nat.ltb_lt in H; rewrite H;
      rewrite ?orb_true_r; reflexivity.
  - intros evs s (Ha & Hc & Hf).
    assert (aligned s) as Hal by (apply spin_aligned; reflexivity).
    apply emits_report_full.
    + unfold not_enough_data.
      apply Nat.ltb_ge in Ha, Hc, Hf. now rewrite Ha, Hc, Hf.
    + unfold aligned in Hal. lia.
Qed.
End Invariants.

Section Reports.
Variable np_mean : list float -> float.

(** C7. Past the guard: with two timestamps or more, the rate is
    [1.0 / mean(diff(timestamps))], the value reported is that rate divided
    by 4, and the status says whether the divided value lies in [[40, 70]];
    with fewer than two timestamps the estimate is absent (and no report
    comes out of that call). *)
Theorem control_rate_estimate (s : Node) :
  not_enough_data s = false ->
  let ts := control_timestamps s in
  let r := compute_metrics np_mean s in
  ((2 <= length ts)%nat ->
   let rate := 1.0 / np_mean (Np.diff ts) in
   let status :=
     if (40 <=? rate / 4) && (rate / 4 <=? 70) then Meets50Hz else Outside50HzRange in
   control_rate np_mean ts = (Some rate, status) /\
   emits_report r = true /\
   last (logged r) (Warn NotEnoughData) = Info (ControlRate (rate / 4) status)) /\
  ((length ts < 2)%nat ->
   control_rate np_mean ts = (None, NotEnoughDataToCompute) /\
   emits_report r = false).
Proof.
  intros Hg ts r. subst ts r. split.
  - intros L rate status. subst rate status. repeat split.
    + unfold control_rate. apply Nat.ltb_lt in L. now rewrite L.
    + now apply emits_report_full.
    + destruct (compute_metrics_full np_mean s Hg L) as (a & ta & b & tb & _ & _ & E).
      cbv zeta in E. rewrite E. reflexivity.
  - intros L. split.
    + unfold control_rate.
      assert ((1 <? length (control_timestamps s))%nat = false) as ->
        by (apply Nat.ltb_ge; lia).
      reflexivity.
    + destruct (compute_metrics_no_rate np_mean s Hg L) as [E _].
      unfold emits_report. now rewrite E.
Qed.

(** C6. In every report, the efficiency line carries
    [efficiency peak_force] for the peak force of the report: a value in
    [[0, 100]], never negative, equal to 0 when the unclamped percentage
    [(1 - peak/250) * 100] is below 0, to 100 when it is above 100, and to
    the unclamped percentage in between; a peak of 0 gives exactly 100 and
    every peak of at least 250 gives exactly 0. *)
Theorem efficiency_clamped (s : Node) :
  emits_report (compute_metrics np_mean s) = true ->
  exists b tb,
    control_forces s = b :: tb /\
    let peak_force := Py.max_from b tb in
    let e := unclamped peak_force in
    In (Info (PeakControlForce peak_force)) (logged (compute_metrics np_mean s)) /\
    In (Info (ControlEffortEfficiency (efficiency peak_force)))
       (logged (compute_metrics np_mean s)) /\
    ((0 <=? efficiency peak_force) = true /\ (efficiency peak_force <=? 100) = true /\
     (efficiency peak_force <? 0) = false) /\
    ((e <? 0) = true -> efficiency peak_force = 0) /\
    ((100 <? e) = true -> efficiency peak_force = 100) /\
    ((0 <=? e) = true -> (e <=? 100) = true -> (efficiency peak_force =? e) = true) /\
    ((peak_force =? 0) = true -> efficiency peak_force = 100) /\
    ((250 <=? peak_force) = true -> efficiency peak_force = 0).
Proof.
  intros H. apply emits_report_inv in H as [Hg L].
  destruct (compute_metrics_full np_mean s Hg L) as (a & ta & b & tb & _ & Eb & E).
  cbv zeta in E. exists b, tb. split; [exact Eb|].
  intros peak_force e. rewrite E.
  pose proof (efficiency_cases peak_force) as (C1 & C2 & C3).
  repeat split.
  - cbn. auto.
  - cbn. auto 6.
  - apply efficiency_range.
  - apply efficiency_range.
  - apply efficiency_range.
  - exact C1.
  - exact C2.
  - exact C3.
  - apply efficiency_zero_peak.
  - apply efficiency_large_peak.
Qed.

(** C1, as the code has it. When all control timestamps are the same
    finite number, so that the intervals are all [+0.0] and their mean is
    zero, a call that passes the guard does not drop the estimate: the rate
    is [1.0 / 0.0 = +inf], the report is written with a reported rate of
    [+inf] and the out-of-band status, and no exception is raised. *)
Theorem coincident_timestamps_rate_infinite (s : Node) (t : float) (n : nat) :
  np_mean (repeat 0 (pred n)) = 0 ->
  is_finite t = true ->
  control_timestamps s = repeat t n ->
  (2 <= n)%nat ->
  not_enough_data s = false ->
  let r := compute_metrics np_mean s in
  control_rate np_mean (control_timestamps s) = (Some infinity, Outside50HzRange) /\
  result r = inr tt /\
  emits_report r = true /\
  last (logged r) (Warn NotEnoughData) = Info (ControlRate infinity Outside50HzRange).
Proof.
  intros Hmean Hfin Hts Hn Hg r. subst r.
  assert (2 <= length (control_timestamps s))%nat as L
    by (rewrite Hts, repeat_length; exact Hn).
  assert (1.0 / np_mean (Np.diff (control_timestamps s)) = infinity) as Hrate.
  { rewrite Hts, diff_repeat, (sub_self t Hfin), Hmean. vm_compute. reflexivity. }
  destruct (compute_metrics_full np_mean s Hg L) as (a & ta & b & tb & _ & _ & E).
  cbv zeta in E. rewrite Hrate in E.
  repeat split.
  - unfold control_rate. apply Nat.ltb_lt in L. rewrite L, Hrate. reflexivity.
  - now rewrite E.
  - now apply emits_report_full.
  - rewrite E. reflexivity.
Qed.

(** C4. A disturbance over the threshold arrives with the clock at [t0];
    the clock is then moved, last to [t1]; a well-formed joint-state
    message with cart speed under 0.05 follows.  The recovery series gains
    exactly one entry, [t1 - t0], and the disturbance window is empty
    afterwards. *)
Theorem recovery_after_disturbance (s : Node) (data : float) (clocks : list Time)
        (msg : JointState) :
  (5.0 <? abs data) = true ->
  settles msg = true ->
  let t0 := simulation_time s in
  let t1 := last (map stamp clocks) t0 in
  let r := spin np_mean (EarthquakeMsg data :: map ClockMsg clocks ++ [JointStateMsg msg]) s in
  result r = inr tt /\
  recovery_times (node r) = recovery_times s ++ [t1 - t0] /\
  last_earthquake_time (node r) = None.
Proof.
  intros Hd Hs t0 t1 r. subst t0 t1 r.
  set (armed := set_last_earthquake_time (Some (simulation_time s)) s).
  destruct (spin_clocks np_mean clocks armed) as [Hok Ht].
  pose proof (@window_closed_once np_mean (map ClockMsg clocks) msg armed
                (simulation_time s) eq_refl (clocks_quiet clocks) Hs Hok)
    as (R0 & R1 & R2 & R3).
  cbv zeta in *. rewrite R3, Ht in R1.
  cbn [spin dispatch]. unfold bind. rewrite (@earthquake_arms data s Hd). fold armed.
  destruct (spin np_mean (map ClockMsg clocks ++ [JointStateMsg msg]) armed)
    as [res s2 l2]. cbn [result node] in *. auto.
Qed.

(** C3. Two disturbances over the threshold arrive, with no settling
    joint-state message before or between them and only quiet events after
    the second.  The settling message that follows appends exactly one
    entry to the recovery series, measured from the clock value recorded
    when the second disturbance arrived. *)
Theorem rearmed_recovery_uses_second_disturbance
        (s : Node) (first second : float) (mid1 mid2 : list Event) (msg : JointState) :
  (5.0 <? abs first) = true ->
  (5.0 <? abs second) = true ->
  forallb (fun ev => negb (settling ev)) mid1 = true ->
  forallb quiet mid2 = true ->
  settles msg = true ->
  let at_second := node (spin np_mean (EarthquakeMsg first :: mid1) s) in
  let r := spin np_mean ((EarthquakeMsg first :: mid1) ++
                         EarthquakeMsg second :: mid2 ++ [JointStateMsg msg]) s in
  result r = inr tt ->
  recovery_times (node r) =
    recovery_times s ++ [simulation_time (node r) - simulation_time at_second] /\
  last_earthquake_time (node r) = None.
Proof.
  intros H1 H2 Hm1 Hm2 Hs at_second r Hok. subst r.
  apply spin_app_ok in Hok as (Hpre & -> & Hsuf). fold at_second in Hsuf |- *.
  assert (recovery_times at_second = recovery_times s) as Hrec.
  { apply spin_unsettled. cbn [forallb settling]. exact Hm1. }
  set (armed := set_last_earthquake_time (Some (simulation_time at_second)) at_second).
  assert (spin np_mean (EarthquakeMsg second :: mid2 ++ [JointStateMsg msg]) at_second
          = bind (earthquake_callback second)
                 (fun _ => spin np_mean (mid2 ++ [JointStateMsg msg])) at_second)
    as Hspin by reflexivity.
  rewrite Hspin in Hsuf |- *. unfold bind in Hsuf |- *.
  rewrite (@earthquake_arms second at_second H2) in Hsuf |- *. fold armed in Hsuf |- *.
  assert (result (spin np_mean mid2 armed) = inr tt) as Hmid.
  { destruct (spin np_mean (mid2 ++ [JointStateMsg msg]) armed) as [res s2 l2] eqn:E.
    cbn in Hsuf. subst res.
    assert (result (spin np_mean (mid2 ++ [JointStateMsg msg]) armed) = inr tt) as E'
      by now rewrite E.
    now apply spin_app_ok in E' as (E' & _). }
  pose proof (@window_closed_once np_mean mid2 msg armed (simulation_time at_second)
                eq_refl Hm2 Hs Hmid) as (R0 & R1 & R2 & R3).
  cbv zeta in *.
  destruct (spin np_mean (mid2 ++ [JointStateMsg msg]) armed) as [res s2 l2].
  cbn [result node] in *. rewrite R1, R2. subst armed. cbn [recovery_times set_last_earthquake_time].
  rewrite Hrec. auto.
Qed.
End Reports.

(** ** The claims at sample inputs *)

Import Example.

Lemma joint_state_missing_name_dropped_witness :
  ~ In "pole_joint"%string (name unnamed) /\
  joint_state_callback unnamed init = MkRun (inr tt) init [Warn JointNamesNotFound].
Proof.
  assert (~ In "pole_joint"%string (name unnamed)) as H.
  { cbn. intros [H|[]]. discriminate H. }
  split; [exact H|]. apply joint_state_missing_name_dropped. right. exact H.
Defined.

Lemma joint_state_short_array_faults_witness :
  (length (position truncated) <= 1)%nat /\
  joint_state_callback truncated init = MkRun (inl Py.IndexError) init [].
Proof.
  split; [cbn; lia|].
  apply (@joint_state_short_array_faults truncated init 0 1);
    [reflexivity | reflexivity | right; left; cbn; lia].
Defined.

Lemma compute_metrics_idempotent_witness :
  not_enough_data steady = false /\
  compute_metrics Np.mean_seq (node (compute_metrics Np.mean_seq steady)) =
  compute_metrics Np.mean_seq steady.
Proof.
  assert (not_enough_data steady = false) as Hg by (vm_compute; reflexivity).
  assert (length (control_timestamps steady) = length (control_forces steady)) as Ha
    by (vm_compute; reflexivity).
  split; [exact Hg|].
  pose proof (@compute_metrics_idempotent Np.mean_seq steady Hg Ha) as (_ & _ & _ & H).
  exact H.
Defined.

Lemma insufficient_data_guard_witness :
  compute_metrics Np.mean_seq init = MkRun (inr tt) init [Warn NotEnoughData] /\
  emits_report (compute_metrics Np.mean_seq steady) = true.
Proof.
  destruct (insufficient_data_guard Np.mean_seq) as [Hshort Hfull]. split.
  - apply Hshort. left. cbn. lia.
  - apply (Hfull warm_up). vm_compute. repeat split; lia.
Defined.

Lemma control_rate_estimate_witness :
  not_enough_data paced = false /\
  control_rate Np.mean_seq (control_timestamps paced) =
    (Some (1.0 / Np.mean_seq (Np.diff (control_timestamps paced))), Meets50Hz) /\
  emits_report (compute_metrics Np.mean_seq paced) = true.
Proof.
  assert (not_enough_data paced = false) as Hg by (vm_compute; reflexivity).
  split; [exact Hg|].
  destruct (@control_rate_estimate Np.mean_seq paced Hg) as [Hrate _].
  assert (2 <= length (control_timestamps paced))%nat as L by (vm_compute; lia).
  destruct (Hrate L) as (H1 & H2 & _). split; [|exact H2].
  rewrite H1. vm_compute. reflexivity.
Defined.

Lemma efficiency_clamped_witness :
  emits_report (compute_metrics Np.mean_seq steady) = true /\
  exists b tb, control_forces steady = b :: tb /\
    In (Info (ControlEffortEfficiency (efficiency (Py.max_from b tb))))
       (logged (compute_metrics Np.mean_seq steady)).
Proof.
  assert (emits_report (compute_metrics Np.mean_seq steady) = true) as H
    by (vm_compute; reflexivity).
  split; [exact H|].
  destruct (@efficiency_clamped Np.mean_seq steady H) as (b & tb & Eb & _ & Hin & _).
  exists b, tb. auto.
Defined.

Lemma coincident_timestamps_rate_infinite_witness :
  control_timestamps steady = repeat 5 10 /\
  control_rate Np.mean_seq (control_timestamps steady) =
    (Some infinity, Outside50HzRange) /\
  result (compute_metrics Np.mean_seq steady) = inr tt.
Proof.
  assert (control_timestamps steady = repeat 5 10) as Hts by (vm_compute; reflexivity).
  split; [exact Hts|].
  assert (Np.mean_seq (repeat 0 (pred 10)) = 0) as Hmean by (vm_compute; reflexivity).
  assert (is_finite 5 = true) as Hfin by (vm_compute; reflexivity).
  assert (2 <= 10)%nat as Hn by lia.
  assert (not_enough_data steady = false) as Hg by (vm_compute; reflexivity).
  pose proof (@coincident_timestamps_rate_infinite Np.mean_seq steady 5 10
                Hmean Hfin Hts Hn Hg) as (H1 & H2 & _).
  auto.
Defined.

(** C1, as stated, fails: ten force commands at one clock value give ten
    equal timestamps; the guard passes, and the rate estimate is present
    ([+inf]), not absent. *)
Lemma coincident_timestamps_rate_not_absent :
  control_timestamps steady = repeat 5 10 /\
  not_enough_data steady = false /\
  fst (control_rate Np.mean_seq (control_timestamps steady)) <> None /\
  result (compute_metrics Np.mean_seq steady) = inr tt /\
  last (logged (compute_metrics Np.mean_seq steady)) (Warn NotEnoughData) =
    Info (ControlRate infinity Outside50HzRange).
Proof.
  split; [vm_compute; reflexivity|].
  split; [vm_compute; reflexivity|].
  split; [vm_compute; discriminate|].
  split; vm_compute; reflexivity.
Qed.

Lemma recovery_after_disturbance_witness :
  (5.0 <? abs 6.0) = true /\ settles at_rest = true /\
  recovery_times
    (node (spin Np.mean_seq
             (EarthquakeMsg 6.0 :: map ClockMsg [at_5s] ++ [JointStateMsg at_rest])
             at_clock_3s5)) = [1.5].
Proof.
  assert ((5.0 <? abs 6.0) = true) as Hd by (vm_compute; reflexivity).
  assert (settles at_rest = true) as Hs by (vm_compute; reflexivity).
  split; [exact Hd|]. split; [exact Hs|].
  pose proof (@recovery_after_disturbance Np.mean_seq at_clock_3s5 6.0 [at_5s]
                at_rest Hd Hs) as (_ & H & _).
  rewrite H. vm_compute. reflexivity.
Defined.

Lemma rearmed_recovery_uses_second_disturbance_witness :
  simulation_time init = 0 /\
  simulation_time (node (spin Np.mean_seq (EarthquakeMsg 6.0 :: mid1) init)) = 3.5 /\
  recovery_times (node (spin Np.mean_seq rearm_trace init)) = [1.5].
Proof.
  split; [reflexivity|]. split; [vm_compute; reflexivity|].
  assert ((5.0 <? abs 6.0) = true) as H1 by (vm_compute; reflexivity).
  assert ((5.0 <? abs (-7.0)) = true) as H2 by (vm_compute; reflexivity).
  assert (forallb (fun ev => negb (settling ev)) mid1 = true) as Hm1
    by (vm_compute; reflexivity).
  assert (forallb quiet mid2 = true) as Hm2 by (vm_compute; reflexivity).
  assert (settles at_rest = true) as Hs by (vm_compute; reflexivity).
  assert (result (spin Np.mean_seq rearm_trace init) = inr tt) as Hok
    by (vm_compute; reflexivity).
  pose proof (@rearmed_recovery_uses_second_disturbance Np.mean_seq init 6.0 (-7.0)
                mid1 mid2 at_rest H1 H2 Hm1 Hm2 Hs Hok) as (H & _).
  unfold rearm_trace. rewrite H. vm_compute. reflexivity.
Defined.

Example efficiency_samples :
  efficiency 0 = 100 /\ efficiency 125 = 50 /\ efficiency 250 = 0 /\
  efficiency 300 = 0 /\ efficiency infinity = 0 /\ efficiency nan = 0.
Proof. repeat split; vm_compute; reflexivity. Qed.

(** * Further properties of the node *)

Import Order64.
Import Cases.

(** ** Joint-state messages, frames and runs *)

(** The three ways a joint-state message can go. *)
Lemma joint_state_cases (msg : JointState) (s : Node) :
  (readings msg = None /\
   joint_state_callback msg s = MkRun (inr tt) s [Warn JointNamesNotFound]) \/
  (readings msg = None /\
   joint_state_callback msg s = MkRun (inl Py.IndexError) s []) \/
  (exists cart_pos pole_angle v, readings msg = Some (cart_pos, pole_angle, v)).
Proof.
  destruct (readings msg) as [[[cp pa] v]|] eqn:Er.
  - right. right. now exists cp, pa, v.
  - destruct (Py.index "cart_to_base" (name msg)) as [ci|] eqn:Ec.
    + destruct (Py.index "pole_joint" (name msg)) as [pi|] eqn:Ep.
      * right. left. split; [reflexivity|].
        now apply (joint_state_index_fault msg s Ec Ep).
      * left. split; [reflexivity|]. apply missing_name_warns. auto.
    + left. split; [reflexivity|]. apply missing_name_warns. auto.
Qed.

(** X1. A joint-state message either is applied in full or leaves the node
    as it was; the only exception that can leave the callback is
    [IndexError], and then nothing has been stored or logged. *)
Theorem joint_state_all_or_nothing (msg : JointState) (s : Node) :
  let r := joint_state_callback msg s in
  match result r with
  | inr _ =>
      (node r = s /\ logged r = [Warn JointNamesNotFound]) \/
      (length (cart_positions (node r)) = S (length (cart_positions s)) /\
       length (pole_angles (node r)) = S (length (pole_angles s)))
  | inl e => e = Py.IndexError /\ node r = s /\ logged r = []
  end.
Proof.
  destruct (joint_state_cases msg s) as [[_ E]|[[_ E]|(cp & pa & v & Er)]].
  - cbv zeta. rewrite E. cbn. auto.
  - cbv zeta. rewrite E. cbn. auto.
  - pose proof (joint_state_ok msg s Er) as (H0 & H1 & H2 & _). cbv zeta in *.
    rewrite H0. right. rewrite H1, H2, !length_app. cbn. lia.
Qed.

Section Frames.
Variable np_mean : list float -> float.

(** What one callback does to the recovery series and to the window. *)
Lemma dispatch_recovery (ev : Event) (s : Node) :
  let s' := node (dispatch np_mean ev s) in
  (recovery_times s' = recovery_times s /\
   (last_earthquake_time s' = last_earthquake_time s \/
    (arming ev = true /\ last_earthquake_time s' = Some (simulation_time s)))) \/
  (exists quake_time,
     settling ev = true /\ last_earthquake_time s = Some quake_time /\
     recovery_times s' = recovery_times s ++ [simulation_time s - quake_time] /\
     last_earthquake_time s' = None).
Proof.
  destruct (settling ev) eqn:Hs.
  - destruct ev as [msg| | | |]; try discriminate. cbn [settling] in Hs.
    cbn [dispatch]. unfold settles in Hs.
    destruct (readings msg) as [[[cp pa] v]|] eqn:Er; [|discriminate].
    pose proof (joint_state_ok msg s Er) as (_ & _ & _ & _ & _ & _ & H).
    cbv zeta in *. rewrite Hs in H.
    destruct (last_earthquake_time s) as [q|].
    + right. exists q. destruct H. auto.
    + left. destruct H as [-> ->]. auto.
  - pose proof (dispatch_quiet np_mean ev s Hs) as [Hr Hw]. cbv zeta in *.
    left. split; [exact Hr|].
    destruct (arming ev) eqn:Ha; [|left; auto].
    right. split; [reflexivity|].
    destruct ev as [|? |data| |]; try discriminate. cbn [arming] in Ha.
    cbn [dispatch]. rewrite (@earthquake_arms data s Ha). reflexivity.
Qed.

(** What one callback does to the clock. *)
Lemma dispatch_clock (ev : Event) (s : Node) :
  simulation_time (node (dispatch np_mean ev s)) =
  match ev with ClockMsg clock => stamp clock | _ => simulation_time s end.
Proof.
  destruct ev as [msg|data|data|clock|]; cbn [dispatch].
  - destruct (joint_state_cases msg s) as [[_ E]|[[_ E]|(cp & pa & v & Er)]];
      try (rewrite E; reflexivity).
    now pose proof (joint_state_ok msg s Er) as (_ & _ & _ & _ & _ & H & _).
  - reflexivity.
  - unfold earthquake_callback, when. destruct (5.0 <? abs data); reflexivity.
  - reflexivity.
  - now rewrite compute_metrics_node.
Qed.

(** What one callback does to the two state series. *)
Lemma dispatch_state_series (ev : Event) (s : Node) :
  let s' := node (dispatch np_mean ev s) in
  (pole_angles s' = pole_angles s /\ cart_positions s' = cart_positions s) \/
  (exists msg cart_pos pole_angle v,
     ev = JointStateMsg msg /\ readings msg = Some (cart_pos, pole_angle, v) /\
     pole_angles s' = pole_angles s ++ [abs pole_angle] /\
     cart_positions s' = cart_positions s ++ [cart_pos]).
Proof.
  destruct ev as [msg|data|data|clock|]; cbn [dispatch].
  - destruct (joint_state_cases msg s) as [[_ E]|[[_ E]|(cp & pa & v & Er)]];
      try (rewrite E; left; auto).
    pose proof (joint_state_ok msg s Er) as (_ & H1 & H2 & _).
    right. exists msg, cp, pa, v. auto.
  - left. auto.
  - left. unfold earthquake_callback, when. destruct (5.0 <? abs data); auto.
  - left. auto.
  - left. rewrite compute_metrics_node. auto.
Qed.

End Frames.

(** An absolute value is never below zero. *)
Lemma abs_not_neg (x : float) : (abs x <? 0) = false.
Proof.
  rewrite ltb_spec, abs_spec, c0.
  destruct (Prim2SF x) as [s|s| |s m e]; reflexivity.
Qed.

Section Runs.
Variable np_mean : list float -> float.

(** X2. After any run from [__init__] the pole-angle series and the
    cart-position series have the same length: the callback appends to
    both or to neither. *)
Theorem state_series_aligned (evs : list Event) :
  length (pole_angles (node (spin np_mean evs init))) =
  length (cart_positions (node (spin np_mean evs init))).
Proof.
  apply (spin_invariant np_mean
           (fun s => length (pole_angles s) = length (cart_positions s)));
    [|reflexivity].
  intros ev s H.
  destruct (dispatch_state_series np_mean ev s) as [[-> ->]|(m & cp & pa & v & _ & _ & -> & ->)];
    [exact H|]. rewrite !length_app. cbn. lia.
Qed.

(** X3. After any run, every stored pole angle and every stored control
    force is an absolute value: none of them compares below zero. *)
Theorem stored_magnitudes_not_negative (evs : list Event) :
  let s := node (spin np_mean evs init) in
  Forall (fun x => (x <? 0) = false) (pole_angles s) /\
  Forall (fun x => (x <? 0) = false) (control_forces s).
Proof.
  apply (spin_invariant np_mean
           (fun s => Forall (fun x => (x <? 0) = false) (pole_angles s) /\
                     Forall (fun x => (x <? 0) = false) (control_forces s)));
    [|split; constructor].
  intros ev s [Hp Hf]. split.
  - destruct (dispatch_state_series np_mean ev s)
      as [[-> _]|(m & cp & pa & v & _ & _ & -> & _)]; [exact Hp|].
    apply Forall_app. split; [exact Hp|]. constructor; [apply abs_not_neg|constructor].
  - pose proof (dispatch_control_series np_mean ev s) as D. cbv zeta in D.
    destruct ev; destruct D as [-> _]; try exact Hf.
    apply Forall_app. split; [exact Hf|]. constructor; [apply abs_not_neg|constructor].
Qed.

(** X4. Whatever is delivered, each of the five series after the run is
    the series before it with samples added at the end: nothing is removed
    or rewritten. *)
Theorem series_append_only (evs : list Event) (s : Node) :
  let s' := node (spin np_mean evs s) in
  (exists l, pole_angles s' = pole_angles s ++ l) /\
  (exists l, cart_positions s' = cart_positions s ++ l) /\
  (exists l, control_forces s' = control_forces s ++ l) /\
  (exists l, control_timestamps s' = control_timestamps s ++ l) /\
  (exists l, recovery_times s' = recovery_times s ++ l).
Proof.
  apply (spin_invariant np_mean
           (fun s' =>
              (exists l, pole_angles s' = pole_angles s ++ l) /\
              (exists l, cart_positions s' = cart_positions s ++ l) /\
              (exists l, control_forces s' = control_forces s ++ l) /\
              (exists l, control_timestamps s' = control_timestamps s ++ l) /\
              (exists l, recovery_times s' = recovery_times s ++ l))).
  - intros ev s1 ((a & Ha) & (c & Hc) & (f & Hf) & (t & Ht) & (r & Hr)).
    repeat split.
    + destruct (dispatch_state_series np_mean ev s1)
        as [[-> _]|(m & cp & pa & v & _ & _ & -> & _)];
        rewrite Ha; [now exists a|]. exists (a ++ [abs pa]). now rewrite app_assoc.
    + destruct (dispatch_state_series np_mean ev s1)
        as [[_ ->]|(m & cp & pa & v & _ & _ & _ & ->)];
        rewrite Hc; [now exists c|]. exists (c ++ [cp]). now rewrite app_assoc.
    + pose proof (dispatch_control_series np_mean ev s1) as D. cbv zeta in D.
      destruct ev; destruct D as [-> _]; rewrite Hf; try (now exists f).
      exists (f ++ [abs data]). now rewrite app_assoc.
    + pose proof (dispatch_control_series np_mean ev s1) as D. cbv zeta in D.
      destruct ev; destruct D as [_ ->]; rewrite Ht; try (now exists t).
      exists (t ++ [simulation_time s1]). now rewrite app_assoc.
    + destruct (dispatch_recovery np_mean ev s1) as [[-> _]|(q & _ & _ & -> & _)];
        rewrite Hr; [now exists r|].
      exists (r ++ [simulation_time s1 - q]). now rewrite app_assoc.
  - repeat split; exists []; now rewrite app_nil_r.
Qed.

End Runs.

Section Windows.
Variable np_mean : list float -> float.

(** A property kept by the callbacks of the events that pass a test is
    kept by every run made of such events. *)
Lemma spin_invariant_on (Q : Event -> bool) (P : Node -> Prop) :
  (forall ev s, Q ev = true -> P s -> P (node (dispatch np_mean ev s))) ->
  forall evs s, forallb Q evs = true -> P s -> P (node (spin np_mean evs s)).
Proof.
  intros Hstep evs. induction evs as [|ev evs IH]; intros s Hq Hs; [exact Hs|].
  cbn [forallb] in Hq. apply andb_prop in Hq as [Hev Hq].
  rewrite spin_cons_node. specialize (Hstep ev s Hev Hs).
  destruct (result (dispatch np_mean ev s)); auto.
Qed.

(** With no window open, an event that does not arm leaves it so. *)
Lemma dispatch_calm (ev : Event) (s : Node) :
  arming ev = false ->
  last_earthquake_time s = None ->
  recovery_times (node (dispatch np_mean ev s)) = recovery_times s /\
  last_earthquake_time (node (dispatch np_mean ev s)) = None.
Proof.
  intros Ha Hw.
  destruct (dispatch_recovery np_mean ev s)
    as [[Hr [Hl|[Hb _]]]|(q & _ & Hl & _)]; try congruence.
  split; congruence.
Qed.

(** X5. Without a disturbance over the threshold, nothing is ever added to
    the recovery series: from a state with no open window, a run without
    such a disturbance leaves the series as it was and the window empty. *)
Theorem no_disturbance_no_recovery (evs : list Event) (s : Node) :
  last_earthquake_time s = None ->
  forallb (fun ev => negb (arming ev)) evs = true ->
  recovery_times (node (spin np_mean evs s)) = recovery_times s /\
  last_earthquake_time (node (spin np_mean evs s)) = None.
Proof.
  intros Hw Hq.
  apply (spin_invariant_on (fun ev => negb (arming ev))
           (fun s' => recovery_times s' = recovery_times s /\
                      last_earthquake_time s' = None)); auto.
  intros ev s1 Ha [Hr Hn]. apply negb_true_iff in Ha.
  destruct (dispatch_calm ev s1 Ha Hn) as [-> ->]. auto.
Qed.

(** One callback adds at most one recovery, and only by closing a window. *)
Lemma dispatch_recovery_count (ev : Event) (s : Node) :
  let s' := node (dispatch np_mean ev s) in
  (length (recovery_times s') + pending s' <=
   length (recovery_times s) + pending s + (if arming ev then 1 else 0))%nat.
Proof.
  cbv zeta. unfold pending.
  destruct (dispatch_recovery np_mean ev s)
    as [[-> [->|[-> ->]]]|(q & Hs & -> & -> & ->)].
  - lia.
  - destruct (last_earthquake_time s); lia.
  - rewrite length_app. cbn. lia.
Qed.

(** X6. The recovery entries added by a run, plus one if a window is still
    open at its end, are at most the disturbances over the threshold that
    were delivered, plus one if a window was open at the start: at most one
    recovery per disturbance. *)
Theorem recoveries_bounded_by_disturbances (evs : list Event) (s : Node) :
  let s' := node (spin np_mean evs s) in
  (length (recovery_times s') + pending s' <=
   length (recovery_times s) + pending s + armings evs)%nat.
Proof.
  cbv zeta. revert s. induction evs as [|ev evs IH]; intros s.
  - cbn. lia.
  - pose proof (dispatch_recovery_count ev s) as H. cbv zeta in H.
    assert (armings (ev :: evs) = (if arming ev then 1 else 0) + armings evs)%nat as ->.
    { unfold armings. cbn [filter]. destruct (arming ev); reflexivity. }
    rewrite spin_cons_node. destruct (result (dispatch np_mean ev s)); [lia|].
    specialize (IH (node (dispatch np_mean ev s))). lia.
Qed.

(** X7. In a run that ends normally the clock holds the stamp of the last
    clock message, whatever else was delivered. *)
Theorem clock_is_last_stamp (evs : list Event) (s : Node) :
  result (spin np_mean evs s) = inr tt ->
  simulation_time (node (spin np_mean evs s)) =
  last (clock_stamps evs) (simulation_time s).
Proof.
  revert s. induction evs as [|ev evs IH]; intros s Hok; [reflexivity|].
  change (ev :: evs) with ([ev] ++ evs) in Hok |- *.
  apply spin_app_ok in Hok as (_ & -> & Hok).
  assert (node (spin np_mean [ev] s) = node (dispatch np_mean ev s)) as E.
  { rewrite spin_cons_node. now destruct (result (dispatch np_mean ev s)). }
  rewrite E in *. rewrite (IH _ Hok), dispatch_clock.
  unfold clock_stamps. rewrite flat_map_app. cbn [flat_map]. rewrite app_nil_r.
  destruct ev; cbn [app]; try reflexivity. now rewrite last_cons.
Qed.

(** X8. Every recorded control timestamp is a clock value: one already
    recorded, the clock at the start, or the stamp of a clock message of
    the run. *)
Theorem timestamps_are_clock_values (evs : list Event) (s : Node) :
  Forall (fun t => In t (control_timestamps s) \/ t = simulation_time s \/
                   In t (clock_stamps evs))
         (control_timestamps (node (spin np_mean evs s))).
Proof.
  revert s. induction evs as [|ev evs IH]; intros s.
  - apply Forall_forall. intros t Ht. now left.
  - assert (Forall (fun t => In t (control_timestamps s) \/ t = simulation_time s)
                   (control_timestamps (node (dispatch np_mean ev s)))) as Hstep.
    { pose proof (dispatch_control_series np_mean ev s) as D. cbv zeta in D.
      apply Forall_forall. intros t Ht.
      destruct ev; destruct D as [_ D]; rewrite D in Ht; auto.
      apply in_app_or in Ht as [Ht|[<-|[]]]; auto. }
    rewrite spin_cons_node. destruct (result (dispatch np_mean ev s)).
    + eapply Forall_impl; [|exact Hstep]. cbv beta. intros t [H|H]; auto.
    + specialize (IH (node (dispatch np_mean ev s))).
      rewrite Forall_forall in IH, Hstep |- *. intros t Ht.
      destruct (IH t Ht) as [H|[H|H]].
      * destruct (Hstep t H); auto.
      * rewrite dispatch_clock in H. destruct ev; auto.
        right. right. cbn. left. auto.
      * right. right. unfold clock_stamps. cbn [flat_map]. apply in_or_app. auto.
Qed.

End Windows.

Section Faults.
Variable np_mean : list float -> float.

(** With the two control series aligned the timer callback ends normally. *)
Lemma compute_metrics_returns (s : Node) :
  aligned s -> exists l, compute_metrics np_mean s = MkRun (inr tt) s l.
Proof.
  intros Ha. destruct (not_enough_data s) eqn:Hg.
  - eexists. now apply compute_metrics_short.
  - pose proof (guard_nonempty s Hg) as (_ & _ & Hf). unfold aligned in Ha.
    assert (2 <= length (control_timestamps s))%nat as L by lia.
    destruct (compute_metrics_full np_mean s Hg L) as (a & ta & b & tb & _ & _ & E).
    cbv zeta in E. eexists. exact E.
Qed.

(** The one callback that can fail, and how. *)
Lemma dispatch_result (ev : Event) (s : Node) :
  aligned s ->
  result (dispatch np_mean ev s) = inr tt \/
  (result (dispatch np_mean ev s) = inl Py.IndexError /\
   exists msg, ev = JointStateMsg msg /\ readings msg = None /\
               In "cart_to_base"%string (name msg) /\ In "pole_joint"%string (name msg)).
Proof.
  intros Ha. destruct ev as [msg|data|data|clock|]; cbn [dispatch].
  - destruct (readings msg) as [[[cp pa] v]|] eqn:Er.
    + left. now pose proof (joint_state_ok msg s Er) as (H & _).
    + destruct (Py.index "cart_to_base" (name msg)) as [ci|] eqn:Ec.
      * destruct (Py.index "pole_joint" (name msg)) as [pi|] eqn:Ep.
        -- right. rewrite (joint_state_index_fault msg s Ec Ep Er).
           split; [reflexivity|]. exists msg. repeat split; auto.
           ++ destruct (in_dec string_dec "cart_to_base"%string (name msg)) as [H|H];
                [exact H|]. apply index_none_iff in H. congruence.
           ++ destruct (in_dec string_dec "pole_joint"%string (name msg)) as [H|H];
                [exact H|]. apply index_none_iff in H. congruence.
        -- left. rewrite missing_name_warns by auto. reflexivity.
      * left. rewrite missing_name_warns by auto. reflexivity.
  - left. reflexivity.
  - left. unfold earthquake_callback, when. destruct (5.0 <? abs data); reflexivity.
  - left. reflexivity.
  - left. destruct (compute_metrics_returns Ha) as [l E]. now rewrite E.
Qed.

(** X9. A run of the node never ends in a [ValueError] or a [TypeError];
    the one exception that can stop it is the [IndexError] of a
    joint-state message with both names and too short an array. *)
Theorem run_faults_only_on_short_arrays (evs : list Event) :
  result (spin np_mean evs init) = inr tt \/
  (result (spin np_mean evs init) = inl Py.IndexError /\
   exists msg, In (JointStateMsg msg) evs /\ readings msg = None /\
               In "cart_to_base"%string (name msg) /\ In "pole_joint"%string (name msg)).
Proof.
  assert (forall s, aligned s ->
            result (spin np_mean evs s) = inr tt \/
            (result (spin np_mean evs s) = inl Py.IndexError /\
             exists msg, In (JointStateMsg msg) evs /\ readings msg = None /\
                         In "cart_to_base"%string (name msg) /\
                         In "pole_joint"%string (name msg))) as H;
    [|apply H; reflexivity].
  induction evs as [|ev evs IH]; intros s Ha; [left; reflexivity|].
  pose proof (dispatch_aligned np_mean ev Ha) as Ha'.
  destruct (dispatch_result ev Ha) as [Hok|(Hf & msg & -> & Hr & Hc & Hp)].
  - cbn [spin]. unfold bind.
    destruct (dispatch np_mean ev s) as [[e|[]] s1 l1]; cbn in Hok, Ha'; [discriminate|].
    destruct (IH s1 Ha') as [H|(H & msg & Hin & Hm)].
    + left. destruct (spin np_mean evs s1). cbn in *. exact H.
    + right. destruct (spin np_mean evs s1). cbn in *. split; [exact H|].
      exists msg. split; [now right|exact Hm].
  - right. cbn [spin dispatch] in *. unfold bind.
    destruct (joint_state_callback msg s) as [[e|[]] s1 l1]; cbn in Hf; [|discriminate].
    cbn. split; [exact Hf|]. exists msg. split; [now left|auto].
Qed.

(** X10. Dropping the timer expiries from a run changes neither the
    attributes it leaves nor the way it ends. *)
Theorem ticks_do_not_matter (evs : list Event) :
  let without := filter (fun ev => negb (is_tick ev)) evs in
  node (spin np_mean evs init) = node (spin np_mean without init) /\
  result (spin np_mean evs init) = result (spin np_mean without init).
Proof.
  cbv zeta.
  assert (forall s, aligned s ->
            node (spin np_mean evs s) =
              node (spin np_mean (filter (fun ev => negb (is_tick ev)) evs) s) /\
            result (spin np_mean evs s) =
              result (spin np_mean (filter (fun ev => negb (is_tick ev)) evs) s)) as H;
    [|apply H; reflexivity].
  induction evs as [|ev evs IH]; intros s Ha; [auto|].
  destruct (is_tick ev) eqn:Et.
  - destruct ev; try discriminate. cbn [filter is_tick negb spin dispatch].
    destruct (compute_metrics_returns Ha) as [l E]. unfold bind. rewrite E.
    destruct (IH s Ha) as [<- <-]. now destruct (spin np_mean evs s).
  - cbn [filter]. rewrite Et. cbn [negb spin]. unfold bind.
    pose proof (dispatch_aligned np_mean ev Ha) as Ha'.
    destruct (dispatch np_mean ev s) as [[e|[]] s1 l1]; cbn in Ha'; [auto|].
    destruct (IH s1 Ha') as [E1 E2].
    destruct (spin np_mean evs s1), (spin np_mean _ s1). cbn in *. auto.
Qed.

End Faults.

(** ** The order of binary64 values *)

Section Order.
Local Open Scope Z_scope.

Lemma SFcompare_rank (x y : spec_float) :
  x <> S754_nan -> y <> S754_nan ->
  exists c, SFcompare x y = Some c /\
            (c = Lt <-> key_lt (rank x) (rank y)) /\
            (c = Eq <-> rank x = rank y) /\
            (c = Gt <-> key_lt (rank y) (rank x)).
Proof.
  intros Hx Hy.
  destruct x as [sx|[]| |[] mx ex]; try congruence;
    destruct y as [sy|[]| |[] my ey]; try congruence;
    cbn [SFcompare rank key_lt];
    try (eexists; split; [reflexivity|];
         repeat split; intros H; try discriminate H; try reflexivity; lia).
  - (* both negative *)
    destruct (Z.compare_spec ex ey) as [->|Hlt|Hgt].
    + change (Pos.compare_cont Eq mx my) with (Pos.compare mx my).
      destruct (Pos.compare_spec mx my) as [->|Hm|Hm]; cbn [CompOpp];
        (eexists; split; [reflexivity|];
         repeat split; intros H; try discriminate H; try reflexivity;
         try (injection H as H; lia); lia).
    + eexists; split; [reflexivity|].
      repeat split; intros H; try discriminate H; try reflexivity;
        try (injection H as H1 H2; lia); lia.
    + eexists; split; [reflexivity|].
      repeat split; intros H; try discriminate H; try reflexivity;
        try (injection H as H1 H2; lia); lia.
  - (* both positive *)
    destruct (Z.compare_spec ex ey) as [->|Hlt|Hgt].
    + change (Pos.compare_cont Eq mx my) with (Pos.compare mx my).
      destruct (Pos.compare_spec mx my) as [->|Hm|Hm];
        (eexists; split; [reflexivity|];
         repeat split; intros H; try discriminate H; try reflexivity;
         try (injection H as H; lia); lia).
    + eexists; split; [reflexivity|].
      repeat split; intros H; try discriminate H; try reflexivity;
        try (injection H as H1 H2; lia); lia.
    + eexists; split; [reflexivity|].
      repeat split; intros H; try discriminate H; try reflexivity;
        try (injection H as H1 H2; lia); lia.
Qed.

End Order.

(** ** Order facts on primitive floats *)

Lemma is_nan_spec (a : float) : is_nan a = true <-> Prim2SF a = S754_nan.
Proof.
  unfold is_nan. rewrite eqb_spec. unfold SFeqb. split.
  - intros H. destruct (Prim2SF a) as [s|s| |s m e] eqn:E; [| |reflexivity|];
      rewrite SFcompare_refl in H by discriminate; discriminate.
  - intros ->. reflexivity.
Qed.

Lemma not_nan_spec (a : float) : is_nan a = false <-> Prim2SF a <> S754_nan.
Proof.
  split.
  - intros H E. apply is_nan_spec in E. congruence.
  - intros H. destruct (is_nan a) eqn:E; [|reflexivity].
    apply is_nan_spec in E. contradiction.
Qed.

Lemma is_nan_eq (a : float) : is_nan a = true -> a = nan.
Proof.
  intros H. apply is_nan_spec in H. apply Prim2SF_inj. rewrite H.
  vm_compute. reflexivity.
Qed.

Lemma ltb_rank (a b : float) :
  is_nan a = false -> is_nan b = false ->
  ((a <? b) = true <-> key_lt (rank (Prim2SF a)) (rank (Prim2SF b))).
Proof.
  intros Ha Hb. apply not_nan_spec in Ha, Hb.
  destruct (SFcompare_rank Ha Hb) as (c & E & HLt & HEq & HGt).
  rewrite ltb_spec. unfold SFltb. rewrite E. rewrite <- HLt.
  destruct c; split; congruence.
Qed.

Lemma leb_rank (a b : float) :
  is_nan a = false -> is_nan b = false ->
  ((a <=? b) = true <-> key_le (rank (Prim2SF a)) (rank (Prim2SF b))).
Proof.
  intros Ha Hb. apply not_nan_spec in Ha, Hb.
  destruct (SFcompare_rank Ha Hb) as (c & E & HLt & HEq & HGt).
  rewrite leb_spec. unfold SFleb, key_le. rewrite E. rewrite <- HLt, <- HEq.
  destruct c; split; intros H; try congruence; auto; destruct H; congruence.
Qed.

(** A comparison that holds has no NaN on either side. *)
Lemma leb_not_nan (a b : float) :
  (a <=? b) = true -> is_nan a = false /\ is_nan b = false.
Proof.
  rewrite leb_spec. intros H. split; apply not_nan_spec; intros E; rewrite E in H.
  - discriminate.
  - destruct (Prim2SF a); discriminate.
Qed.

Lemma ltb_not_nan (a b : float) :
  (a <? b) = true -> is_nan a = false /\ is_nan b = false.
Proof.
  rewrite ltb_spec. intros H. split; apply not_nan_spec; intros E; rewrite E in H.
  - discriminate.
  - destruct (Prim2SF a); discriminate.
Qed.

Section KeyOrder.
Local Open Scope Z_scope.

Lemma key_le_refl (a : Z * Z * Z) : key_le a a.
Proof. now right. Qed.

Lemma key_lt_le (a b : Z * Z * Z) : key_lt a b -> key_le a b.
Proof. now left. Qed.

Lemma key_total (a b : Z * Z * Z) : key_lt a b \/ key_le b a.
Proof.
  destruct a as [[a1 a2] a3], b as [[b1 b2] b3]. unfold key_le, key_lt.
  destruct (Z.lt_trichotomy a1 b1) as [H|[H|H]]; [lia| |lia].
  destruct (Z.lt_trichotomy a2 b2) as [H2|[H2|H2]]; [lia| |lia].
  destruct (Z.lt_trichotomy a3 b3) as [H3|[H3|H3]]; [lia| |lia].
  right. right. congruence.
Qed.

Lemma key_lt_not_le (a b : Z * Z * Z) : key_lt a b -> ~ key_le b a.
Proof.
  destruct a as [[a1 a2] a3], b as [[b1 b2] b3]. unfold key_le, key_lt.
  intros H [H'|H']; [lia|]. injection H' as -> -> ->. lia.
Qed.

Lemma key_le_trans (a b c : Z * Z * Z) : key_le a b -> key_le b c -> key_le a c.
Proof.
  destruct a as [[a1 a2] a3], b as [[b1 b2] b3], c as [[c1 c2] c3].
  unfold key_le, key_lt. intros [H|H] [H'|H'].
  - left. lia.
  - injection H' as <- <- <-. now left.
  - injection H as -> -> ->. now left.
  - right. congruence.
Qed.

End KeyOrder.

Lemma float_leb_refl (a : float) : is_nan a = false -> (a <=? a) = true.
Proof. intros H. apply leb_rank; auto. apply key_le_refl. Qed.

Lemma float_ltb_leb (a b : float) : (a <? b) = true -> (a <=? b) = true.
Proof.
  intros H. destruct (ltb_not_nan H) as [Ha Hb].
  apply leb_rank; auto. apply key_lt_le. now apply ltb_rank.
Qed.

Lemma float_not_ltb_leb (a b : float) :
  is_nan a = false -> is_nan b = false -> (a <? b) = false -> (b <=? a) = true.
Proof.
  intros Ha Hb H. apply leb_rank; auto.
  destruct (key_total (rank (Prim2SF a)) (rank (Prim2SF b))) as [Hlt|Hle]; [|exact Hle].
  apply ltb_rank in Hlt; auto. congruence.
Qed.

Lemma float_leb_not_ltb (a b : float) : (a <=? b) = true -> (b <? a) = false.
Proof.
  intros H. destruct (leb_not_nan H) as [Ha Hb].
  destruct (b <? a) eqn:E; [|reflexivity].
  apply ltb_rank in E; auto. apply leb_rank in H; auto.
  now apply key_lt_not_le in E.
Qed.

Lemma float_leb_trans (a b c : float) :
  (a <=? b) = true -> (b <=? c) = true -> (a <=? c) = true.
Proof.
  intros H1 H2. destruct (leb_not_nan H1) as [Ha Hb].
  destruct (leb_not_nan H2) as [_ Hc].
  apply leb_rank in H1, H2; auto. apply leb_rank; auto.
  eapply key_le_trans; eauto.
Qed.

(** ** Builtin [max] *)

Lemma max2_cases (a b : float) : Py.max2 a b = a \/ Py.max2 a b = b.
Proof. unfold Py.max2. destruct (a <? b); auto. Qed.

Lemma max2_not_nan (a b : float) :
  is_nan a = false -> is_nan (Py.max2 a b) = false.
Proof.
  intros Ha. unfold Py.max2. destruct (a <? b) eqn:E; [|exact Ha].
  now destruct (@ltb_not_nan a b E).
Qed.

Lemma max2_upper (a b : float) :
  is_nan a = false -> is_nan b = false ->
  (a <=? Py.max2 a b) = true /\ (b <=? Py.max2 a b) = true.
Proof.
  intros Ha Hb. unfold Py.max2. destruct (a <? b) eqn:E.
  - split; [now apply float_ltb_leb | now apply float_leb_refl].
  - split; [now apply float_leb_refl | now apply float_not_ltb_leb].
Qed.

Lemma max_from_in (a : float) (l : list float) : In (Py.max_from a l) (a :: l).
Proof.
  revert a. induction l as [|x l IH]; intros a; [now left|].
  change (Py.max_from a (x :: l)) with (Py.max_from (Py.max2 a x) l).
  destruct (IH (Py.max2 a x)) as [H|H].
  - rewrite <- H. destruct (max2_cases a x) as [-> | ->]; cbn; auto.
  - cbn. auto.
Qed.

Lemma max_from_upper (a : float) (l : list float) :
  is_nan a = false -> Forall (fun x => is_nan x = false) l ->
  Forall (fun x => (x <=? Py.max_from a l) = true) (a :: l).
Proof.
  revert a. induction l as [|x l IH]; intros a Ha Hl.
  - constructor; [now apply float_leb_refl|constructor].
  - inversion Hl as [|? ? Hx Hl']; subst.
    change (Py.max_from a (x :: l)) with (Py.max_from (Py.max2 a x) l).
    destruct (@max2_upper a x Ha Hx) as [H1 H2].
    specialize (IH (Py.max2 a x) (@max2_not_nan a x Ha) Hl').
    inversion IH as [|? ? Hm Hrest]; subst.
    constructor; [eapply float_leb_trans; eauto|].
    constructor; [eapply float_leb_trans; eauto|exact Hrest].
Qed.

(** A NaN is passed over by [max] wherever it is not the first element. *)
Lemma max2_nan_r (a : float) : Py.max2 a nan = a.
Proof.
  unfold Py.max2. destruct (a <? nan) eqn:E; [|reflexivity].
  destruct (@ltb_not_nan a nan E) as [_ H]. discriminate H.
Qed.

Lemma max2_nan_l (b : float) : Py.max2 nan b = nan.
Proof.
  unfold Py.max2. destruct (nan <? b) eqn:E; [|reflexivity].
  destruct (@ltb_not_nan nan b E) as [H _]. discriminate H.
Qed.

Lemma max_from_nan_first (l : list float) : Py.max_from nan l = nan.
Proof.
  induction l as [|x l IH]; [reflexivity|].
  change (Py.max_from nan (x :: l)) with (Py.max_from (Py.max2 nan x) l).
  now rewrite max2_nan_l.
Qed.

Lemma max_from_skips_nan (a : float) (l1 l2 : list float) :
  Py.max_from a (l1 ++ nan :: l2) = Py.max_from a (l1 ++ l2).
Proof.
  unfold Py.max_from. rewrite !fold_left_app. cbn [fold_left].
  now rewrite max2_nan_r.
Qed.

(** ** Lookups by name *)



(** ** What a well-formed joint-state message logs *)

(** X12. The position warning is written exactly when [|cart_pos| > 2.5],
    the recovery line exactly when a window is open and the cart has
    settled; the position is stored as received either way. *)
Theorem joint_state_logged (msg : JointState) (s : Node)
        (cart_pos pole_angle v : float) :
  readings msg = Some (cart_pos, pole_angle, v) ->
  let r := joint_state_callback msg s in
  logged r =
    (if 2.5 <? abs cart_pos then [Warn (CartExceededLimit cart_pos)] else []) ++
    match last_earthquake_time s with
    | Some quake_time =>
        if abs v <? 0.05 then [Info (RecoveryTime (simulation_time s - quake_time))]
        else []
    | None => []
    end /\
  cart_positions (node r) = cart_positions s ++ [cart_pos] /\
  last_stable_time (node r) =
    match last_earthquake_time s with
    | Some _ => if abs v <? 0.05 then Some (simulation_time s) else last_stable_time s
    | None => last_stable_time s
    end.
Proof.
  intros Hr. unfold readings in Hr.
  destruct (Py.index "cart_to_base" (name msg)) as [ci|] eqn:Ec; [|discriminate].
  destruct (Py.index "pole_joint" (name msg)) as [pi|] eqn:Ep; [|discriminate].
  destruct (nth_error (position msg) ci) as [a|] eqn:E1; [|discriminate].
  destruct (nth_error (position msg) pi) as [b|] eqn:E2; [|discriminate].
  destruct (nth_error (velocity msg) ci) as [c|] eqn:E3; [|discriminate].
  injection Hr as -> -> ->.
  unfold joint_state_callback, try_except, joint_state_body, name_index, getitem,
    when, bind.
  rewrite Ec, Ep; cbn. rewrite E1; cbn. rewrite E2; cbn. rewrite E3; cbn.
  destruct (2.5 <? abs cart_pos); cbn;
    (destruct (last_earthquake_time s) as [q|] eqn:Eq; cbn;
     [destruct (abs v <? 0.05); cbn; rewrite ?Eq; repeat split; reflexivity
     | rewrite ?Eq; repeat split; reflexivity]).
Qed.

(** ** Disturbances at or under the threshold *)

(** X13. A disturbance of magnitude at most 5.0, the bound included, or a
    NaN, changes nothing and logs nothing. *)
Theorem disturbance_under_threshold (data : float) (s : Node) :
  (abs data <=? 5.0) = true \/ is_nan data = true ->
  earthquake_callback data s = MkRun (inr tt) s [].
Proof.
  intros H. unfold earthquake_callback, when.
  assert ((5.0 <? abs data) = false) as ->; [|reflexivity].
  destruct H as [H|H].
  - now apply float_leb_not_ltb.
  - apply is_nan_spec in H. rewrite ltb_spec, abs_spec, H. reflexivity.
Qed.

(** ** The two maxima of a report *)

Section Maxima.
Variable np_mean : list float -> float.

(** X14. The reported maximum pole angle and peak force are recorded
    samples, and when no sample of a series is a NaN they bound every
    sample of that series from above. *)
Theorem reported_maxima (s : Node) :
  emits_report (compute_metrics np_mean s) = true ->
  exists angle peak,
    In (Info (MaxPoleAngleDeviation angle)) (logged (compute_metrics np_mean s)) /\
    In (Info (PeakControlForce peak)) (logged (compute_metrics np_mean s)) /\
    In angle (pole_angles s) /\ In peak (control_forces s) /\
    (Forall (fun x => is_nan x = false) (pole_angles s) ->
     Forall (fun x => (x <=? angle) = true) (pole_angles s)) /\
    (Forall (fun x => is_nan x = false) (control_forces s) ->
     Forall (fun x => (x <=? peak) = true) (control_forces s)).
Proof.
  intros H. apply emits_report_inv in H as [Hg L].
  destruct (compute_metrics_full np_mean s Hg L) as (a & ta & b & tb & Ea & Eb & E).
  cbv zeta in E. rewrite E, Ea, Eb.
  exists (Py.max_from a ta), (Py.max_from b tb). repeat split.
  - cbn. auto.
  - cbn. auto 6.
  - apply max_from_in.
  - apply max_from_in.
  - intros Hn. inversion Hn; subst. now apply max_from_upper.
  - intros Hn. inversion Hn; subst. now apply max_from_upper.
Qed.

(** X15. A NaN as the first force sample makes the reported peak a NaN
    and the reported efficiency 0. *)
Theorem nan_first_force (s : Node) (rest : list float) :
  emits_report (compute_metrics np_mean s) = true ->
  control_forces s = nan :: rest ->
  In (Info (PeakControlForce nan)) (logged (compute_metrics np_mean s)) /\
  In (Info (ControlEffortEfficiency 0)) (logged (compute_metrics np_mean s)).
Proof.
  intros H Ef. apply emits_report_inv in H as [Hg L].
  destruct (compute_metrics_full np_mean s Hg L) as (a & ta & b & tb & _ & Eb & E).
  cbv zeta in E. rewrite E. rewrite Ef in Eb. injection Eb as <- <-.
  rewrite max_from_nan_first.
  replace (efficiency nan) with 0 by (vm_compute; reflexivity).
  split; cbn; auto 6.
Qed.

(** X16. A NaN force sample that is not the first one is passed over: the
    reported peak is that of the other samples. *)
Theorem nan_later_force (s : Node) (first : float) (before after : list float) :
  emits_report (compute_metrics np_mean s) = true ->
  control_forces s = first :: before ++ nan :: after ->
  In (Info (PeakControlForce (Py.max_from first (before ++ after))))
     (logged (compute_metrics np_mean s)).
Proof.
  intros H Ef. apply emits_report_inv in H as [Hg L].
  destruct (compute_metrics_full np_mean s Hg L) as (a & ta & b & tb & _ & Eb & E).
  cbv zeta in E. rewrite E. rewrite Ef in Eb. injection Eb as <- <-.
  rewrite max_from_skips_nan. cbn. auto 6.
Qed.

End Maxima.

(** ** Counting samples *)

Section Counts.
Variable np_mean : list float -> float.

Lemma dispatch_counts (ev : Event) (s : Node) :
  result (dispatch np_mean ev s) = inr tt ->
  let s' := node (dispatch np_mean ev s) in
  length (cart_positions s') =
    (length (cart_positions s) + (if well_formed ev then 1 else 0))%nat /\
  length (pole_angles s') =
    (length (pole_angles s) + (if well_formed ev then 1 else 0))%nat /\
  length (control_forces s') =
    (length (control_forces s) + (if is_force ev then 1 else 0))%nat.
Proof.
  intros Hok. cbv zeta.
  pose proof (dispatch_control_series np_mean ev s) as D. cbv zeta in D.
  assert (length (control_forces (node (dispatch np_mean ev s))) =
          (length (control_forces s) + (if is_force ev then 1 else 0))%nat) as Hf.
  { destruct ev; destruct D as [-> _]; rewrite ?length_app; cbn; lia. }
  repeat split; try exact Hf; clear Hf D.
  - destruct ev as [msg| | | |]; cbn [well_formed].
    + cbn [dispatch] in *.
      destruct (joint_state_cases msg s) as [[Er E]|[[Er E]|(cp & pa & v & Er)]];
        rewrite Er; try (rewrite E; cbn; lia).
      pose proof (joint_state_ok msg s Er) as (_ & -> & _).
      rewrite length_app. reflexivity.
    + cbn. lia.
    + cbn [dispatch]. unfold earthquake_callback, when.
      destruct (5.0 <? abs data); cbn; lia.
    + cbn. lia.
    + cbn [dispatch]. rewrite compute_metrics_node. lia.
  - destruct ev as [msg| | | |]; cbn [well_formed].
    + cbn [dispatch] in *.
      destruct (joint_state_cases msg s) as [[Er E]|[[Er E]|(cp & pa & v & Er)]];
        rewrite Er; try (rewrite E; cbn; lia).
      pose proof (joint_state_ok msg s Er) as (_ & _ & -> & _).
      rewrite length_app. reflexivity.
    + cbn. lia.
    + cbn [dispatch]. unfold earthquake_callback, when.
      destruct (5.0 <? abs data); cbn; lia.
    + cbn. lia.
    + cbn [dispatch]. rewrite compute_metrics_node. lia.
Qed.

(** Lengths after a run that ends normally. *)
Lemma spin_counts (evs : list Event) (s : Node) :
  result (spin np_mean evs s) = inr tt ->
  let s' := node (spin np_mean evs s) in
  length (cart_positions s') =
    (length (cart_positions s) + length (filter well_formed evs))%nat /\
  length (pole_angles s') =
    (length (pole_angles s) + length (filter well_formed evs))%nat /\
  length (control_forces s') =
    (length (control_forces s) + length (filter is_force evs))%nat.
Proof.
  cbv zeta. revert s. induction evs as [|ev evs IH]; intros s Hok.
  - cbn. lia.
  - change (ev :: evs) with ([ev] ++ evs) in Hok |- *.
    apply spin_app_ok in Hok as (H1 & -> & Hok).
    assert (result (dispatch np_mean ev s) = inr tt /\
            node (spin np_mean [ev] s) = node (dispatch np_mean ev s)) as [Hd En].
    { revert H1. cbn [spin]. unfold bind.
      destruct (dispatch np_mean ev s) as [[e|[]] s1 l1]; cbn; [discriminate|auto]. }
    rewrite En in *.
    destruct (dispatch_counts ev s Hd) as (C1 & C2 & C3). cbv zeta in *.
    destruct (IH _ Hok) as (I1 & I2 & I3).
    rewrite I1, I2, I3, C1, C2, C3.
    cbn [app filter]. destruct (well_formed ev), (is_force ev); cbn [length]; lia.
Qed.

(** X17. After a run from [__init__] that ends normally, each series
    holds one sample per message that feeds it: the force series and the
    timestamp series one per force command, the two state series one per
    well-formed joint-state message. *)
Theorem sample_counts (evs : list Event) :
  result (spin np_mean evs init) = inr tt ->
  let s := node (spin np_mean evs init) in
  length (cart_positions s) = length (filter well_formed evs) /\
  length (pole_angles s) = length (filter well_formed evs) /\
  length (control_forces s) = length (filter is_force evs) /\
  length (control_timestamps s) = length (filter is_force evs).
Proof.
  intros Hok s. subst s.
  destruct (spin_counts evs init Hok) as (C1 & C2 & C3). cbv zeta in *.
  assert (aligned (node (spin np_mean evs init))) as Ha
    by (apply spin_aligned; reflexivity).
  unfold aligned in Ha. rewrite Ha, C1, C2, C3. cbn. auto.
Qed.

(** X18. A run without any disturbance over the threshold reports the
    absence of recovery data, whenever it reports. *)
Theorem no_disturbance_reports_no_recovery (evs : list Event) :
  forallb (fun ev => negb (arming ev)) evs = true ->
  let s := node (spin np_mean evs init) in
  emits_report (compute_metrics np_mean s) = true ->
  In (Info NoRecoveryData) (logged (compute_metrics np_mean s)).
Proof.
  intros Hq s H. subst s.
  assert (recovery_times (node (spin np_mean evs init)) = [] /\
          last_earthquake_time (node (spin np_mean evs init)) = None) as [Hr _].
  { apply (spin_invariant_on np_mean (fun ev => negb (arming ev))
             (fun s' => recovery_times s' = [] /\ last_earthquake_time s' = None)); auto.
    intros ev s1 Ha [Hr Hn]. apply negb_true_iff in Ha.
    destruct (dispatch_calm np_mean ev s1 Ha Hn) as [-> ->]. auto. }
  apply emits_report_inv in H as [Hg L].
  destruct (compute_metrics_full np_mean _ Hg L) as (a & ta & b & tb & _ & _ & E).
  cbv zeta in E. rewrite E, Hr. cbn. auto 7.
Qed.

(** X19. A normally ending run is followed by a report exactly when it
    delivered ten force commands and ten well-formed joint-state messages. *)
Theorem report_needs_ten_of_each (evs : list Event) :
  result (spin np_mean evs init) = inr tt ->
  (emits_report (compute_metrics np_mean (node (spin np_mean evs init))) = true <->
   (10 <= length (filter well_formed evs) /\ 10 <= length (filter is_force evs))%nat).
Proof.
  intros Hok. destruct (spin_counts evs init Hok) as (C1 & C2 & C3).
  cbv zeta in *. cbn [init cart_positions pole_angles control_forces length] in *.
  set (s := node (spin np_mean evs init)) in *. split.
  - intros H. apply emits_report_inv in H as [Hg _].
    pose proof (guard_nonempty s Hg) as (Ha & Hc & Hf). lia.
  - intros [Hw Hf].
    assert (aligned s) as Hal by (apply spin_aligned; reflexivity).
    apply emits_report_full.
    + unfold not_enough_data.
      assert ((length (pole_angles s) <? 10)%nat = false) as -> by (apply Nat.ltb_ge; lia).
      assert ((length (cart_positions s) <? 10)%nat = false) as ->
        by (apply Nat.ltb_ge; lia).
      assert ((length (control_forces s) <? 10)%nat = false) as ->
        by (apply Nat.ltb_ge; lia).
      reflexivity.
    + unfold aligned in Hal. lia.
Qed.

End Counts.

(** ** The further properties at sample inputs *)

Lemma no_disturbance_no_recovery_witness :
  forallb (fun ev => negb (arming ev)) calm_run = true /\
  recovery_times (node (spin Np.mean_seq calm_run init)) = [].
Proof.
  assert (forallb (fun ev => negb (arming ev)) calm_run = true) as Hq
    by (vm_compute; reflexivity).
  split; [exact Hq|].
  pose proof (@no_disturbance_no_recovery Np.mean_seq calm_run init eq_refl Hq) as [H _].
  exact H.
Defined.

Lemma clock_is_last_stamp_witness :
  result (spin Np.mean_seq calm_run init) = inr tt /\
  simulation_time (node (spin Np.mean_seq calm_run init)) = 5.
Proof.
  assert (result (spin Np.mean_seq calm_run init) = inr tt) as Hok
    by (vm_compute; reflexivity).
  split; [exact Hok|].
  rewrite (@clock_is_last_stamp Np.mean_seq calm_run init Hok).
  vm_compute. reflexivity.
Defined.


Lemma joint_state_logged_witness :
  readings far_out = Some (3.0, 0.1, 0.02) /\
  logged (joint_state_callback far_out shaken) =
    [Warn (CartExceededLimit 3.0); Info (RecoveryTime 1.5)].
Proof.
  assert (readings far_out = Some (3.0, 0.1, 0.02)) as H by reflexivity.
  split; [exact H|].
  pose proof (@joint_state_logged far_out shaken 3.0 0.1 0.02 H) as (E & _).
  cbv zeta in E. rewrite E. vm_compute. reflexivity.
Defined.

Lemma disturbance_under_threshold_witness :
  (abs (-5.0) <=? 5.0) = true /\
  earthquake_callback (-5.0) init = MkRun (inr tt) init [].
Proof.
  assert ((abs (-5.0) <=? 5.0) = true) as H by (vm_compute; reflexivity).
  split; [exact H|].
  apply (@disturbance_under_threshold (-5.0) init). left. exact H.
Defined.

Lemma reported_maxima_witness :
  emits_report (compute_metrics Np.mean_seq steady) = true /\
  exists peak, In peak (control_forces steady) /\
               In (Info (PeakControlForce peak))
                  (logged (compute_metrics Np.mean_seq steady)).
Proof.
  assert (emits_report (compute_metrics Np.mean_seq steady) = true) as H
    by (vm_compute; reflexivity).
  split; [exact H|].
  destruct (@reported_maxima Np.mean_seq steady H) as (angle & peak & _ & H2 & _ & H4 & _).
  exists peak. auto.
Defined.

Lemma nan_first_force_witness :
  control_forces (node (spin Np.mean_seq nan_first_run init)) = nan :: repeat 3 9 /\
  In (Info (ControlEffortEfficiency 0))
     (logged (compute_metrics Np.mean_seq (node (spin Np.mean_seq nan_first_run init)))).
Proof.
  assert (control_forces (node (spin Np.mean_seq nan_first_run init)) = nan :: repeat 3 9)
    as Hf by (vm_compute; reflexivity).
  assert (emits_report
            (compute_metrics Np.mean_seq (node (spin Np.mean_seq nan_first_run init))) = true)
    as H by (vm_compute; reflexivity).
  split; [exact Hf|].
  pose proof (@nan_first_force Np.mean_seq _ _ H Hf) as [_ H2]. exact H2.
Defined.

Lemma nan_later_force_witness :
  control_forces (node (spin Np.mean_seq nan_later_run init)) =
    3 :: [] ++ nan :: 7 :: repeat 3 7 /\
  In (Info (PeakControlForce 7))
     (logged (compute_metrics Np.mean_seq (node (spin Np.mean_seq nan_later_run init)))).
Proof.
  assert (control_forces (node (spin Np.mean_seq nan_later_run init)) =
            3 :: [] ++ nan :: 7 :: repeat 3 7) as Hf by (vm_compute; reflexivity).
  assert (emits_report
            (compute_metrics Np.mean_seq (node (spin Np.mean_seq nan_later_run init))) = true)
    as H by (vm_compute; reflexivity).
  split; [exact Hf|].
  pose proof (@nan_later_force Np.mean_seq _ 3 [] (7 :: repeat 3 7) H Hf) as H2.
  replace (Py.max_from 3 ([] ++ 7 :: repeat 3 7)) with 7 in H2 by (vm_compute; reflexivity).
  exact H2.
Defined.

Lemma sample_counts_witness :
  result (spin Np.mean_seq warm_up init) = inr tt /\
  length (control_forces (node (spin Np.mean_seq warm_up init))) = 10%nat.
Proof.
  assert (result (spin Np.mean_seq warm_up init) = inr tt) as Hok
    by (vm_compute; reflexivity).
  split; [exact Hok|].
  pose proof (@sample_counts Np.mean_seq warm_up Hok) as (_ & _ & H & _).
  rewrite H. vm_compute. reflexivity.
Defined.

Lemma no_disturbance_reports_no_recovery_witness :
  forallb (fun ev => negb (arming ev)) warm_up = true /\
  In (Info NoRecoveryData)
     (logged (compute_metrics Np.mean_seq (node (spin Np.mean_seq warm_up init)))).
Proof.
  assert (forallb (fun ev => negb (arming ev)) warm_up = true) as Hq
    by (vm_compute; reflexivity).
  assert (emits_report
            (compute_metrics Np.mean_seq (node (spin Np.mean_seq warm_up init))) = true)
    as H by (vm_compute; reflexivity).
  split; [exact Hq|].
  exact (@no_disturbance_reports_no_recovery Np.mean_seq warm_up Hq H).
Defined.

Lemma report_needs_ten_of_each_witness :
  result (spin Np.mean_seq warm_up init) = inr tt /\
  emits_report (compute_metrics Np.mean_seq steady) = true.
Proof.
  assert (result (spin Np.mean_seq warm_up init) = inr tt) as Hok
    by (vm_compute; reflexivity).
  split; [exact Hok|].
  apply (@report_needs_ten_of_each Np.mean_seq warm_up Hok).
  vm_compute. split; lia.
Defined.
